(** * Consensus set: speculative transaction sets and the database guard

    A shallow embedding of two files of the consensus package,
    [validtransaction.go] (the state reader, [validTransaction] and
    [TryTransactionSet]) and [database.go] ([openDB], [replaceDatabase],
    [initDB], [inconsistencyDetected]), with the properties their
    specification states about them.

    Go values are embedded as follows.  A function returning [error] returns
    [option error] ([None] is [nil]); one returning [(T, error)] returns a
    pair.  A function that mutates its [*bolt.Tx] takes the transaction's
    state and returns the new one, also when it reports an error, since the
    mutation has happened by then.  A nil-pointer dereference is the outcome
    [Panics]. *)

From stdpp Require Import gmap strings list fin_maps.
From Stdlib.Strings Require Import Byte.

Set Default Proof Using "Type".

(** ** Error values

    Go compares [error] values by identity.  The code compares against two
    values only: the package-level [persist.ErrBadVersion], and the value
    that [TryTransactionSet] allocates for itself on every call.  The first
    has a constructor of its own; every other error value that exists outside
    a running call is an [errorString] carrying its text. *)
Inductive error : Type :=
| ErrBadVersion
| errorString (s : string).

(** The result of a call that may panic. *)
Inductive outcome (A : Type) : Type :=
| Returns (a : A)
| Panics.
Arguments Returns {A} a.
Arguments Panics {A}.

(** ** The durable store (bolt) *)

(** Modelled from the spec: the durable store is "a transactional key/value
    database providing ACID transactions over named buckets"; the bolt
    package itself is not part of the sources.  A bucket maps keys to
    values, a store maps bucket names to buckets. *)
Record Tx : Type := mkTx {
  tx_writable : bool;
  tx_root : gmap string (gmap string (list byte))
}.

Record DB : Type := mkDB {
  db_opened : bool;
  db_root : gmap string (gmap string (list byte))
}.

Definition ErrDatabaseNotOpen : error := errorString "database not open".
Definition ErrTxNotWritable : error := errorString "tx not writable".
Definition ErrKeyRequired : error := errorString "key required".

(** [tx.Bucket(name)]: the bucket, or nil when there is none. *)
Definition Bucket (tx : Tx) (name : string) : option (gmap string (list byte)) :=
  tx_root tx !! name.

(** [b.Get(key)]: the value, or a nil slice when the key is absent. *)
Definition Get (b : gmap string (list byte)) (key : string) : list byte :=
  default [] (b !! key).

(** [tx.Bucket(name).Put(key, value)] on an existing bucket [name]. *)
Definition Put (tx : Tx) (name key : string) (value : list byte) : Tx * option error :=
  if negb (tx_writable tx) then (tx, Some ErrTxNotWritable)
  else if decide (key = "") then (tx, Some ErrKeyRequired)
  else (mkTx (tx_writable tx) (alter (insert key value) name (tx_root tx)), None).

(** Modelled from the spec: "the underlying transactional primitive commits
    unless the enclosing callback returns a non-nil error".  [db.Update(fn)]
    begins a writable transaction on the persisted buckets, runs [fn] on it,
    and commits the transaction's buckets only when [fn] returns nil; on an
    error, and on a panic, the transaction is rolled back.  [X] is the state
    the closure [fn] captures from its caller: what [fn] does to it is not
    undone by a rollback.  [lift] injects bolt's own errors into the error
    type of the caller. *)
Definition Update {E X : Type} (lift : error -> E)
    (fn : X -> Tx -> Tx * X * outcome (option E)) (x : X) (d : DB)
  : DB * X * outcome (option E) :=
  if db_opened d then
    let '(tx', x', r) := fn x (mkTx true (db_root d)) in
    match r with
    | Returns None => (mkDB (db_opened d) (tx_root tx'), x', Returns None)
    | Returns (Some e) => (d, x', Returns (Some e))
    | Panics => (d, x', Panics)
    end
  else (d, x, Returns (Some (lift ErrDatabaseNotOpen))).

(** * database.go *)
Module Database.

Definition errRepeatInsert : error :=
  errorString "attempting to add an already existing item to the consensus set".
Definition errNilBucket : error := errorString "using a bucket that does not exist".
Definition errNilItem : error := errorString "requested item does not exist".
Definition errDBInconsistent : error :=
  errorString "database guard indicates inconsistency within database".
Definition errNonEmptyBucket : error :=
  errorString "cannot remove a map with objects still in it".

Record Metadata : Type := mkMetadata { Header : string; Version : string }.

Definition dbMetadata : Metadata :=
  {| Header := "Consensus Set Database"; Version := "1.1.0" |}.

(** What [openDB] and [replaceDatabase] do to the outside, in order. *)
Inductive IOEvent : Type :=
| EvOpenDatabase (md : Metadata) (filename : string)
| EvConvertLegacy (filename : string)
| EvPrintln (s : string)
| EvRename (oldpath newpath : string).

(** The functions and constants of other files that [database.go] uses.
    [FS] is the state of the file system, [BoltDatabase] what a
    [*persist.BoltDatabase] points to, [file_at] and [database_root] what can
    be observed of them.  [build_Severe e] tells whether [build.Severe(e)]
    returns or panics once it has reported [e]. *)
Class Env : Type := {
  FS : Type;
  FileImage : Type;
  BoltDatabase : Type;
  file_at : FS -> string -> option FileImage;
  database_root : BoltDatabase -> gmap string (gmap string (list byte));
  persist_OpenDatabase :
    Metadata -> string -> FS -> FS * (option BoltDatabase * option error);
  convertLegacyDatabase :
    string -> FS -> FS * (option BoltDatabase * option error);
  os_Rename : string -> string -> FS -> FS * option error;
  ErrBadVersion_text : string;
  Consistency : string;
  BlockStakeOutputs : string;
  createConsensusDB : Tx -> Tx * option error;
  createChangeLog : Tx -> Tx * option error;
  siabin_Marshal_bool : bool -> list byte;
  siabin_Unmarshal_bool : list byte -> error + bool;
  build_Severe : error -> outcome unit
}.

Section Defs.
Context `{Env}.

(** [err.Error()] *)
Definition Error (e : error) : string :=
  match e with
  | ErrBadVersion => ErrBadVersion_text
  | errorString s => s
  end.

(** [errors.New(s)] *)
Definition errors_New (s : string) : error := errorString s.

(** The receiver, as far as this file uses it: the field [db]. *)
Record ConsensusSet : Type := mkConsensusSet { db : option BoltDatabase }.

(** The file system together with the receiver's [db] field and the events
    so far. *)
Record Host : Type := mkHost {
  host_fs : FS;
  host_cs : ConsensusSet;
  host_events : list IOEvent
}.

Definition replaceDatabase (filename : string) (h : Host) : Host * option error :=
  let ev1 := host_events h ++ [EvPrintln "Outdated consensus database... backing up and replacing"] in
  let '(fs1, err) := os_Rename filename (filename +:+ ".bck") (host_fs h) in
  let ev2 := ev1 ++ [EvRename filename (filename +:+ ".bck")] in
  match err with
  | Some e =>
      (mkHost fs1 (host_cs h) ev2,
       Some (errors_New ("error while backing up consensus database: " +:+ Error e)))
  | None =>
      let '(fs2, (d, err)) := persist_OpenDatabase dbMetadata filename fs1 in
      let h2 := mkHost fs2 (mkConsensusSet d) (ev2 ++ [EvOpenDatabase dbMetadata filename]) in
      match err with
      | Some e => (h2, Some (errors_New ("error opening consensus database: " +:+ Error e)))
      | None => (h2, None)
      end
  end.

Definition wrap_open_error (err : option error) : option error :=
  match err with
  | Some e => Some (errors_New ("error opening consensus database: " +:+ Error e))
  | None => None
  end.

Definition openDB (filename : string) (h : Host) : Host * option error :=
  let '(fs1, (d1, err1)) := persist_OpenDatabase dbMetadata filename (host_fs h) in
  let h1 := mkHost fs1 (mkConsensusSet d1) (host_events h ++ [EvOpenDatabase dbMetadata filename]) in
  match err1 with
  | Some ErrBadVersion =>
      let '(fs2, (d2, err2)) := convertLegacyDatabase filename fs1 in
      let h2 := mkHost fs2 (mkConsensusSet d2) (host_events h1 ++ [EvConvertLegacy filename]) in
      match err2 with
      | Some ErrBadVersion => replaceDatabase filename h2
      | _ => (h2, wrap_open_error err2)
      end
  | _ => (h1, wrap_open_error err1)
  end.

Definition dbInitialized (tx : Tx) : bool :=
  bool_decide (is_Some (Bucket tx BlockStakeOutputs)).

(** [initDB]; panics when [tx.Bucket(Consistency)] is nil. *)
Definition initDB (tx : Tx) : Tx * outcome (option error) :=
  let '(tx1, err) := createConsensusDB tx in
  match err with
  | Some e => (tx1, Returns (Some e))
  | None =>
      let '(tx2, err) := createChangeLog tx1 in
      match err with
      | Some e => (tx2, Returns (Some e))
      | None =>
          match Bucket tx2 Consistency with
          | None => (tx2, Panics)
          | Some _ =>
              let '(tx3, err) := Put tx2 Consistency Consistency (siabin_Marshal_bool false) in
              match err with
              | Some e => (tx3, Returns (Some e))
              | None => (tx3, Returns None)
              end
          end
      end
  end.

(** [inconsistencyDetected]: the errors handed to [build.Severe], and the
    result.  [detected] is the named result, false until a decode stores
    into it; a decode that fails stores nothing.  A panic of [build.Severe]
    is a panic of the call. *)
Definition inconsistencyDetected (tx : Tx) : list error * outcome bool :=
  match Bucket tx Consistency with
  | None => ([], Panics)
  | Some b =>
      let inconsistencyBytes := Get b Consistency in
      let detected := false in
      match siabin_Unmarshal_bool inconsistencyBytes with
      | inl err =>
          match build_Severe err with
          | Returns _ => ([err], Returns detected)
          | Panics => ([err], Panics)
          end
      | inr v => ([], Returns v)
      end
  end.

(** [markInconsistency]: the new state, the errors handed to
    [build.Severe], and whether the call returns. *)
Definition markInconsistency (tx : Tx) : Tx * list error * outcome unit :=
  match Bucket tx Consistency with
  | None => (tx, [], Panics)
  | Some _ =>
      let '(tx1, err) := Put tx Consistency Consistency (siabin_Marshal_bool true) in
      match err with
      | Some e =>
          match build_Severe e with
          | Returns _ => (tx1, [e], Returns tt)
          | Panics => (tx1, [e], Panics)
          end
      | None => (tx1, [], Returns tt)
      end
  end.

(** The backup name that [replaceDatabase] gives a file. *)
Definition backup_name (filename : string) : string := filename +:+ ".bck".

(** One database transaction whose callback is [initDB]: "the same
    transaction that creates all required buckets". *)
Definition initDB_in_transaction (d : DB) : DB * outcome (option error) :=
  let '(d', _, r) :=
    Update (fun e => e)
      (fun (_ : unit) tx => let '(tx', r) := initDB tx in (tx', tt, r)) tt d in
  (d', r).

(** The consistency flag that a store holds, if it holds one. *)
Definition stored_flag (root : gmap string (gmap string (list byte))) : option (list byte) :=
  root !! Consistency ≫= (.!! Consistency).

End Defs.
End Database.

(** * validtransaction.go *)
Module ValidTransaction.

(** [uint64] quantities; the code only copies them. *)
Definition BlockHeight : Type := N.
Definition Timestamp : Type := N.

(** The types of other packages that the file mentions, with the zero values
    that [new(T)] and [T{}] give them. *)
Class Types : Type := {
  Transaction : Type;
  TransactionVersion : Type;
  TransactionVersion_eq_dec :: EqDecision TransactionVersion;
  TransactionVersion_countable :: Countable TransactionVersion;
  TransactionID : Type;
  Block : Type;
  BlockID : Type;
  Target : Type;
  Currency : Type;
  CoinOutputID : Type;
  CoinOutput : Type;
  BlockStakeOutputID : Type;
  BlockStakeOutput : Type;
  CoinOutputDiff : Type;
  BlockStakeOutputDiff : Type;
  PluginBucket : Type;
  ThreadGroup : Type;
  Version : Transaction -> TransactionVersion;
  ID : Transaction -> TransactionID;
  Block_zero : Block;
  Target_zero : Target
}.

(** The value [TryTransactionSet] works with as an [error]: either the value
    it allocated itself with [errors.New("success")], which no other code
    holds and which is therefore different from every error that a
    validator, a plugin or the store returns, or one of those. *)
Inductive local_error : Type :=
| errSuccess
| outer (e : error).

Section Records.
Context `{Types}.

Record ValidationContext : Type := mkValidationContext {
  Confirmed : bool;
  ctx_BlockHeight : BlockHeight;
  BlockTime : Timestamp;
  IsBlockCreatingTx : bool
}.

Record TransactionValidationContext : Type := mkTransactionValidationContext {
  ctx_ValidationContext : ValidationContext;
  ctx_BlockSizeLimit : N;
  ctx_ArbitraryDataSizeLimit : N;
  ctx_MinimumMinerFee : Currency
}.

Record TransactionValidationConstants : Type := mkTransactionValidationConstants {
  BlockSizeLimit : N;
  ArbitraryDataSizeLimit : N;
  MinimumMinerFee : Currency
}.

(** The fields of [types.ChainConstants] that the file reads. *)
Record ChainConstants : Type := mkChainConstants {
  cts_BlockSizeLimit : N;
  cts_ArbitraryDataSizeLimit : N;
  MinimumTransactionFee : Currency
}.

(** The fields of [processedBlock] that the file reads or writes. *)
Record processedBlock : Type := mkProcessedBlock {
  pb_Block : Block;
  pb_Height : BlockHeight;
  pb_Depth : Target;
  pb_ChildTarget : Target;
  pb_CoinOutputDiffs : list CoinOutputDiff;
  pb_BlockStakeOutputDiffs : list BlockStakeOutputDiff
}.

(** [new(processedBlock)] *)
Definition new_processedBlock : processedBlock :=
  mkProcessedBlock Block_zero 0%N Target_zero Target_zero [] [].

Record ConsensusBlock : Type := mkConsensusBlock {
  cb_Block : Block;
  cb_Height : BlockHeight;
  cb_Depth : Target;
  cb_ChildTarget : Target
}.

(** [modules.ConsensusBlock{}] *)
Definition ConsensusBlock_zero : ConsensusBlock :=
  mkConsensusBlock Block_zero 0%N Target_zero Target_zero.

(** The two fields of [modules.ConsensusChange] that the file sets; it
    leaves the others at their zero value. *)
Record ConsensusChange : Type := mkConsensusChange {
  CoinOutputDiffs : list CoinOutputDiff;
  BlockStakeOutputDiffs : list BlockStakeOutputDiff
}.

(** [modules.ConsensusChange{}] *)
Definition ConsensusChange_zero : ConsensusChange := mkConsensusChange [] [].

Record consensusStateGetter : Type := mkConsensusStateGetter { csg_tx : Tx }.

Definition newConsensusStateGetter (tx : Tx) : consensusStateGetter :=
  mkConsensusStateGetter tx.

(** A stand-alone validator.  It sees the store through the state getter,
    whose interface has read operations only. *)
Definition TransactionValidationFunction : Type :=
  Transaction -> TransactionValidationContext -> consensusStateGetter -> option error.

(** The method of [modules.ConsensusSetPlugin] that the file calls.  The
    bucket is a handle into the open transaction, whose state the call may
    change. *)
Record ConsensusSetPlugin : Type := mkPlugin {
  ApplyTransaction :
    Transaction -> Block -> BlockHeight -> PluginBucket -> Tx -> Tx * option error
}.

(** The receiver, as far as this file reads it.  The fields [db], [tg],
    [mu] and [log] are what the calls below act on: see [World]. *)
Record ConsensusSet : Type := mkConsensusSet {
  txVersionMappedValidators : gmap TransactionVersion (list TransactionValidationFunction);
  txValidators : list TransactionValidationFunction;
  plugins : gmap string ConsensusSetPlugin;
  chainCts : ChainConstants
}.

Inductive ValidatorScope : Type := VersionSpecific | Global.

(** The calls a run makes, in order. *)
Inductive Event : Type :=
| EvValidator (scope : ValidatorScope) (i : nat)
    (t : Transaction) (ctx : TransactionValidationContext)
| EvPluginValidators (t : Transaction) (ctx : TransactionValidationContext)
| EvPrintf (id : TransactionID) (err : error)
| EvApplyTransaction (t : Transaction)
| EvPluginApply (name : string) (t : Transaction) (b : Block) (h : BlockHeight)
| EvTgAdd
| EvTgDone
| EvRLock
| EvRUnlock
| EvUpdate.

End Records.

(** The functions of other files that [validtransaction.go] calls.
    [range_plugins k m] is the order in which the [k]-th [range] over the Go
    map [m] visits its entries; Go leaves that order open, and so does the
    model. *)
Class Env `{Types} : Type := {
  getBlockMap : Tx -> BlockID -> processedBlock * option error;
  getPath : Tx -> BlockHeight -> BlockID * option error;
  getCoinOutput : Tx -> CoinOutputID -> CoinOutput * option error;
  getBlockStakeOutput : Tx -> BlockStakeOutputID -> BlockStakeOutput * option error;
  blockHeight : Tx -> BlockHeight;
  blockTimeStamp : Tx -> BlockHeight -> Timestamp * option error;
  validateTransactionUsingPlugins :
    ConsensusSet -> Transaction -> TransactionValidationContext ->
    consensusStateGetter -> Tx -> option error;
  applyTransaction : Tx -> processedBlock -> Transaction -> Tx * processedBlock;
  bucketForPlugin : ConsensusSet -> Tx -> string -> PluginBucket;
  range_plugins :
    nat -> gmap string ConsensusSetPlugin -> list (string * ConsensusSetPlugin);
  tg_Add : ThreadGroup -> ThreadGroup * option error;
  tg_Done : ThreadGroup -> ThreadGroup
}.

Section Defs.
Context `{Env}.

Definition BlockAtID (csg : consensusStateGetter) (id : BlockID)
  : ConsensusBlock * option error :=
  let '(pb, err) := getBlockMap (csg_tx csg) id in
  match err with
  | Some e => (ConsensusBlock_zero, Some e)
  | None =>
      ({| cb_Block := pb_Block pb;
          cb_Height := pb_Height pb;
          cb_Depth := pb_Depth pb;
          cb_ChildTarget := pb_ChildTarget pb |}, None)
  end.

Definition BlockAtHeight (csg : consensusStateGetter) (height : BlockHeight)
  : ConsensusBlock * option error :=
  let '(id, err) := getPath (csg_tx csg) height in
  match err with
  | Some e => (ConsensusBlock_zero, Some e)
  | None => BlockAtID csg id
  end.

Definition UnspentCoinOutputGet (csg : consensusStateGetter) (id : CoinOutputID)
  : CoinOutput * option error :=
  getCoinOutput (csg_tx csg) id.

Definition UnspentBlockStakeOutputGet (csg : consensusStateGetter)
    (id : BlockStakeOutputID) : BlockStakeOutput * option error :=
  getBlockStakeOutput (csg_tx csg) id.

(** One [for _, validator := range validators] loop: the calls made and the
    first error.  [i] is the index of the head of [validators]. *)
Fixpoint run_validators (scope : ValidatorScope) (i : nat)
    (validators : list TransactionValidationFunction)
    (t : Transaction) (ctx : TransactionValidationContext)
    (csg : consensusStateGetter) : list Event * option error :=
  match validators with
  | [] => ([], None)
  | validator :: rest =>
      match validator t ctx csg with
      | Some e => ([EvValidator scope i t ctx], Some e)
      | None =>
          let '(evs, err) := run_validators scope (S i) rest t ctx csg in
          (EvValidator scope i t ctx :: evs, err)
      end
  end.

Definition validTransaction (cs : ConsensusSet) (tx : Tx) (t : Transaction)
    (constants : TransactionValidationConstants)
    (blockHeight : BlockHeight) (blockTimestamp : Timestamp)
    (isBlockCreatingTx : bool) : list Event * option error :=
  let csg := newConsensusStateGetter tx in
  let ctx :=
    {| ctx_ValidationContext :=
         {| Confirmed := true;
            ctx_BlockHeight := blockHeight;
            BlockTime := blockTimestamp;
            IsBlockCreatingTx := isBlockCreatingTx |};
       ctx_BlockSizeLimit := BlockSizeLimit constants;
       ctx_ArbitraryDataSizeLimit := ArbitraryDataSizeLimit constants;
       ctx_MinimumMinerFee := MinimumMinerFee constants |} in
  let '(ev1, err) :=
    match txVersionMappedValidators cs !! Version t with
    | Some validators => run_validators VersionSpecific 0 validators t ctx csg
    | None => ([], None)
    end in
  match err with
  | Some e => (ev1, Some e)
  | None =>
      let '(ev2, err) := run_validators Global 0 (txValidators cs) t ctx csg in
      match err with
      | Some e => (ev1 ++ ev2, Some e)
      | None =>
          (ev1 ++ ev2 ++ [EvPluginValidators t ctx],
           validateTransactionUsingPlugins cs t ctx csg tx)
      end
  end.

(** The loop [for name, plugin := range cs.plugins] of [TryTransactionSet],
    over the entries in the order the range visits them. *)
Fixpoint apply_plugins (cs : ConsensusSet) (entries : list (string * ConsensusSetPlugin))
    (txn : Transaction) (diffHolder : processedBlock) (tx : Tx)
  : Tx * list Event * option error :=
  match entries with
  | [] => (tx, [], None)
  | (name, plugin) :: rest =>
      let bucket := bucketForPlugin cs tx name in
      let ev := EvPluginApply name txn (pb_Block diffHolder) (pb_Height diffHolder) in
      let '(tx1, err) :=
        ApplyTransaction plugin txn (pb_Block diffHolder) (pb_Height diffHolder) bucket tx in
      match err with
      | Some e => (tx1, [ev], Some e)
      | None =>
          let '(tx2, evs, err) := apply_plugins cs rest txn diffHolder tx1 in
          (tx2, ev :: evs, err)
      end
  end.

(** The loop [for _, txn := range txns] inside the callback; [k] counts the
    transactions already handled.  [None] means that the loop ran to its
    end. *)
Fixpoint try_loop (cs : ConsensusSet) (k : nat) (txns : list Transaction)
    (blockTime : Timestamp) (diffHolder : processedBlock) (tx : Tx)
  : Tx * processedBlock * list Event * option error :=
  match txns with
  | [] => (tx, diffHolder, [], None)
  | txn :: rest =>
      let '(ev1, err) :=
        validTransaction cs tx txn
          {| BlockSizeLimit := cts_BlockSizeLimit (chainCts cs);
             ArbitraryDataSizeLimit := cts_ArbitraryDataSizeLimit (chainCts cs);
             MinimumMinerFee := MinimumTransactionFee (chainCts cs) |}
          (pb_Height diffHolder) blockTime false in
      match err with
      | Some e => (tx, diffHolder, ev1 ++ [EvPrintf (ID txn) e], Some e)
      | None =>
          let '(tx1, diffHolder1) := applyTransaction tx diffHolder txn in
          let '(tx2, ev2, err) :=
            apply_plugins cs (range_plugins k (plugins cs)) txn diffHolder1 tx1 in
          match err with
          | Some e => (tx2, diffHolder1, ev1 ++ EvApplyTransaction txn :: ev2, Some e)
          | None =>
              let '(tx3, diffHolder3, ev3, err) :=
                try_loop cs (S k) rest blockTime diffHolder1 tx2 in
              (tx3, diffHolder3, ev1 ++ EvApplyTransaction txn :: ev2 ++ ev3, err)
          end
      end
  end.

(** The closure passed to [cs.db.Update].  It captures [diffHolder], and the
    model lets it capture the list of events too. *)
Definition try_callback (cs : ConsensusSet) (txns : list Transaction)
    (captured : processedBlock * list Event) (tx : Tx)
  : Tx * (processedBlock * list Event) * outcome (option local_error) :=
  let '(diffHolder, evs) := captured in
  let diffHolder :=
    {| pb_Block := pb_Block diffHolder;
       pb_Height := blockHeight tx;
       pb_Depth := pb_Depth diffHolder;
       pb_ChildTarget := pb_ChildTarget diffHolder;
       pb_CoinOutputDiffs := pb_CoinOutputDiffs diffHolder;
       pb_BlockStakeOutputDiffs := pb_BlockStakeOutputDiffs diffHolder |} in
  let '(blockTime, err) := blockTimeStamp tx (pb_Height diffHolder) in
  match err with
  | Some e => (tx, (diffHolder, evs), Returns (Some (outer e)))
  | None =>
      let '(tx1, diffHolder1, ev1, err) := try_loop cs 0 txns blockTime diffHolder tx in
      match err with
      | Some e => (tx1, (diffHolder1, evs ++ ev1), Returns (Some (outer e)))
      | None => (tx1, (diffHolder1, evs ++ ev1), Returns (Some errSuccess))
      end
  end.

(** What a call acts on besides its arguments: the shutdown coordinator
    [cs.tg], the database behind [cs.db], and the calls made so far (which
    include those on the lock [cs.mu] and the logger [cs.log]). *)
Record World : Type := mkWorld {
  w_tg : ThreadGroup;
  w_db : DB;
  w_events : list Event
}.

Definition TryTransactionSet (cs : ConsensusSet) (txns : list Transaction) (w : World)
  : World * outcome (ConsensusChange * option local_error) :=
  let '(tg1, err) := tg_Add (w_tg w) in
  match err with
  | Some e =>
      (mkWorld tg1 (w_db w) (w_events w ++ [EvTgAdd]),
       Returns (ConsensusChange_zero, Some (outer e)))
  | None =>
      let diffHolder := new_processedBlock in
      let '(d, (diffHolder1, evs), r) :=
        Update outer (try_callback cs txns)
          (diffHolder, w_events w ++ [EvTgAdd; EvRLock; EvUpdate]) (w_db w) in
      let w1 := mkWorld (tg_Done tg1) d (evs ++ [EvRUnlock; EvTgDone]) in
      match r with
      | Panics => (w1, Panics)
      | Returns (Some errSuccess) =>
          (w1, Returns ({| CoinOutputDiffs := pb_CoinOutputDiffs diffHolder1;
                           BlockStakeOutputDiffs := pb_BlockStakeOutputDiffs diffHolder1 |},
                        None))
      | Returns err => (w1, Returns (ConsensusChange_zero, err))
      end
  end.

(** ** The specification's reading of the two loops

    The definitions below follow the words of the specification; the
    theorems compare them with the definitions above. *)

(** The context that [validTransaction] is specified to build. *)
Definition supplied_context (constants : TransactionValidationConstants)
    (height : BlockHeight) (timestamp : Timestamp) (isBlockCreating : bool)
  : TransactionValidationContext :=
  mkTransactionValidationContext
    (mkValidationContext true height timestamp isBlockCreating)
    (BlockSizeLimit constants) (ArbitraryDataSizeLimit constants)
    (MinimumMinerFee constants).

(** The validators of one list, each with the call that invokes it and the
    verdict it gives on [t]. *)
Fixpoint validator_stages (scope : ValidatorScope) (i : nat)
    (validators : list TransactionValidationFunction)
    (t : Transaction) (ctx : TransactionValidationContext)
    (csg : consensusStateGetter) : list (Event * option error) :=
  match validators with
  | [] => []
  | validator :: rest =>
      (EvValidator scope i t ctx, validator t ctx csg)
        :: validator_stages scope (S i) rest t ctx csg
  end.

(** The stages of the validation pipeline in the specified order: the
    validators registered for the transaction's version, if any; the global
    validators; the plugin validators. *)
Definition validation_stages (cs : ConsensusSet) (tx : Tx) (t : Transaction)
    (ctx : TransactionValidationContext) : list (Event * option error) :=
  let csg := newConsensusStateGetter tx in
  validator_stages VersionSpecific 0
      (default [] (txVersionMappedValidators cs !! Version t)) t ctx csg
    ++ validator_stages Global 0 (txValidators cs) t ctx csg
    ++ [(EvPluginValidators t ctx, validateTransactionUsingPlugins cs t ctx csg tx)].

(** The constants the try path validates with. *)
Definition try_constants (cs : ConsensusSet) : TransactionValidationConstants :=
  mkTransactionValidationConstants
    (cts_BlockSizeLimit (chainCts cs)) (cts_ArbitraryDataSizeLimit (chainCts cs))
    (MinimumTransactionFee (chainCts cs)).

(** The verdict of the pipeline: the error of the first stage, in order,
    that reports one. *)
Fixpoint first_error (stages : list (Event * option error)) : option error :=
  match stages with
  | [] => None
  | (_, Some e) :: _ => Some e
  | (_, None) :: rest => first_error rest
  end.

(** A transaction passes validation on the try path when no stage of the
    pipeline reports an error on it. *)
Definition passes_validation (cs : ConsensusSet) (tx : Tx) (txn : Transaction)
    (height : BlockHeight) (blockTime : Timestamp) : Prop :=
  first_error
    (validation_stages cs tx txn
       (supplied_context (try_constants cs) height blockTime false)) = None.

(** The apply hook of one registered plugin on [txn]: the plugin's
    [ApplyTransaction] with the block and the height of the accumulator and
    the plugin's own bucket. *)
Definition apply_hook (cs : ConsensusSet) (txn : Transaction)
    (diffHolder : processedBlock) (entry : string * ConsensusSetPlugin) (tx : Tx)
  : Tx * option error :=
  ApplyTransaction entry.2 txn (pb_Block diffHolder) (pb_Height diffHolder)
    (bucketForPlugin cs tx entry.1) tx.

(** "Every plugin apply hook succeeds": each plugin's hook, run on the
    state that the hooks before it left, returns nil. *)
Fixpoint hooks_succeed (cs : ConsensusSet) (txn : Transaction)
    (diffHolder : processedBlock) (entries : list (string * ConsensusSetPlugin))
    (tx : Tx) : Prop :=
  match entries with
  | [] => True
  | entry :: rest =>
      (apply_hook cs txn diffHolder entry tx).2 = None
      /\ hooks_succeed cs txn diffHolder rest (apply_hook cs txn diffHolder entry tx).1
  end.

(** The error of the first plugin hook that reports one. *)
Fixpoint first_hook_error (cs : ConsensusSet) (txn : Transaction)
    (diffHolder : processedBlock) (entries : list (string * ConsensusSetPlugin))
    (tx : Tx) : option error :=
  match entries with
  | [] => None
  | entry :: rest =>
      match (apply_hook cs txn diffHolder entry tx).2 with
      | Some e => Some e
      | None =>
          first_hook_error cs txn diffHolder rest (apply_hook cs txn diffHolder entry tx).1
      end
  end.

(** The state that the hooks of all plugins leave. *)
Fixpoint after_hooks (cs : ConsensusSet) (txn : Transaction)
    (diffHolder : processedBlock) (entries : list (string * ConsensusSetPlugin))
    (tx : Tx) : Tx :=
  match entries with
  | [] => tx
  | entry :: rest =>
      after_hooks cs txn diffHolder rest (apply_hook cs txn diffHolder entry tx).1
  end.

(** "Every transaction passes validation and every plugin apply hook
    succeeds", each transaction on the state that its predecessors and
    their hooks left. *)
Fixpoint batch_passes (cs : ConsensusSet) (blockTime : Timestamp) (k : nat)
    (txns : list Transaction) (diffHolder : processedBlock) (tx : Tx) : Prop :=
  match txns with
  | [] => True
  | txn :: rest =>
      let applied := applyTransaction tx diffHolder txn in
      let entries := range_plugins k (plugins cs) in
      passes_validation cs tx txn (pb_Height diffHolder) blockTime
      /\ hooks_succeed cs txn applied.2 entries applied.1
      /\ batch_passes cs blockTime (S k) rest applied.2
           (after_hooks cs txn applied.2 entries applied.1)
  end.

(** "The accumulated diffs": the accumulator after [applyTransaction] has
    recorded every transaction of the batch, in order. *)
Fixpoint accumulated (cs : ConsensusSet) (k : nat) (txns : list Transaction)
    (diffHolder : processedBlock) (tx : Tx) : processedBlock :=
  match txns with
  | [] => diffHolder
  | txn :: rest =>
      let applied := applyTransaction tx diffHolder txn in
      accumulated cs (S k) rest applied.2
        (after_hooks cs txn applied.2 (range_plugins k (plugins cs)) applied.1)
  end.

(** How a batch is rejected: the number of transactions before the
    rejected one, whether a plugin hook rejected it (and not a validator),
    the transaction, and the error. *)
Record rejection : Type := mkRejection {
  rej_position : nat;
  rej_by_plugin : bool;
  rej_transaction : Transaction;
  rej_error : error
}.

Definition later (r : rejection) : rejection :=
  mkRejection (S (rej_position r)) (rej_by_plugin r) (rej_transaction r) (rej_error r).

(** "The first validator or plugin error": the first transaction, in
    batch order, that the pipeline or a plugin hook rejects, all before it
    having passed both. *)
Fixpoint first_rejection (cs : ConsensusSet) (blockTime : Timestamp) (k : nat)
    (txns : list Transaction) (diffHolder : processedBlock) (tx : Tx)
  : option rejection :=
  match txns with
  | [] => None
  | txn :: rest =>
      match first_error
              (validation_stages cs tx txn
                 (supplied_context (try_constants cs) (pb_Height diffHolder)
                    blockTime false)) with
      | Some e => Some (mkRejection 0 false txn e)
      | None =>
          let applied := applyTransaction tx diffHolder txn in
          let entries := range_plugins k (plugins cs) in
          match first_hook_error cs txn applied.2 entries applied.1 with
          | Some e => Some (mkRejection 0 true txn e)
          | None =>
              later <$> first_rejection cs blockTime (S k) rest applied.2
                          (after_hooks cs txn applied.2 entries applied.1)
          end
      end
  end.

(** The diff accumulator as the callback first sees it: fresh, at the
    height of the chain tip. *)
Definition tip_diffHolder (tx : Tx) : processedBlock :=
  mkProcessedBlock Block_zero (blockHeight tx) Target_zero Target_zero [] [].

(** The transaction that [Update] hands to the callback. *)
Definition begin_tx (d : DB) : Tx := mkTx true (db_root d).

(** A validation call is made in the context of the chain tip of [tx]: at
    the tip's height and timestamp, confirmed, and not block creating. *)
Definition in_tip_context (tx : Tx) (ev : Event) : Prop :=
  match ev with
  | EvValidator _ _ _ ctx | EvPluginValidators _ ctx =>
      ctx_ValidationContext ctx =
        mkValidationContext true (blockHeight tx)
          (blockTimeStamp tx (blockHeight tx)).1 false
  | _ => True
  end.

(** A transaction that validation rejects whenever it is not presented as
    block creating. *)
Definition only_valid_as_block_creating (cs : ConsensusSet) (t : Transaction) : Prop :=
  forall tx constants height timestamp,
    (validTransaction cs tx t constants height timestamp false).2 <> None.

End Defs.
End ValidTransaction.

(** * A small chain and a small disk

    Concrete instances of the two environments, on which the statements
    below are run. *)
Module Scenario.
Import ValidTransaction.

Record SampleTx : Type := mkSampleTx {
  s_version : N;
  s_id : N;
  s_spends : string;
  s_creates : string;
  s_block_creating : bool
}.

#[export] Instance sample_types : Types := {|
  Transaction := SampleTx;
  TransactionVersion := N;
  TransactionID := N;
  Block := list SampleTx;
  BlockID := string;
  Target := N;
  Currency := N;
  CoinOutputID := string;
  CoinOutput := list byte;
  BlockStakeOutputID := string;
  BlockStakeOutput := list byte;
  CoinOutputDiff := bool * string;
  BlockStakeOutputDiff := bool * string;
  PluginBucket := string;
  ThreadGroup := bool;
  Version := s_version;
  ID := s_id;
  Block_zero := [];
  Target_zero := 0%N
|}.

Definition lookup_in (tx : Tx) (name key : string) : option (list byte) :=
  Bucket tx name ≫= (.!! key).

(** The height is stored in unary, the path under the height's unary
    numeral, and a block's timestamp as the length of its entry. *)
Definition unary (n : N) : string := String.string_of_list_ascii (replicate (N.to_nat n) (Ascii.ascii_of_nat 73)).

Definition sample_blockHeight (tx : Tx) : BlockHeight :=
  N.of_nat (length (default [] (lookup_in tx "BlockHeight" "BlockHeight"))).

Definition sample_getPath (tx : Tx) (h : BlockHeight) : string * option error :=
  match lookup_in tx "BlockPath" (unary h) with
  | Some bs => (String.string_of_list_byte bs, None)
  | None => ("", Some Database.errNilItem)
  end.

Definition sample_getBlockMap (tx : Tx) (id : string) : processedBlock * option error :=
  match lookup_in tx "BlockMap" id with
  | Some bs =>
      (mkProcessedBlock [] (N.of_nat (length bs)) 7%N 9%N [] [], None)
  | None => (new_processedBlock, Some Database.errNilItem)
  end.

Definition sample_getOutput (bucket : string) (tx : Tx) (id : string)
  : list byte * option error :=
  match lookup_in tx bucket id with
  | Some value => (value, None)
  | None => ([], Some Database.errNilItem)
  end.

Definition sample_blockTimeStamp (tx : Tx) (h : BlockHeight) : Timestamp * option error :=
  match sample_getPath tx h with
  | (id, None) =>
      match lookup_in tx "BlockTime" id with
      | Some bs => (N.of_nat (length bs), None)
      | None => (0%N, Some Database.errNilItem)
      end
  | (_, Some e) => (0%N, Some e)
  end.

Definition sample_applyTransaction (tx : Tx) (pb : processedBlock) (t : SampleTx)
  : Tx * processedBlock :=
  (mkTx (tx_writable tx)
     (alter (fun b => <[s_creates t := []]> (delete (s_spends t) b)) "CoinOutputs" (tx_root tx)),
   mkProcessedBlock (pb_Block pb) (pb_Height pb) (pb_Depth pb) (pb_ChildTarget pb)
     (pb_CoinOutputDiffs pb ++ [(false, s_spends t); (true, s_creates t)])
     (pb_BlockStakeOutputDiffs pb)).

#[export] Instance sample_env : Env := {|
  getBlockMap := sample_getBlockMap;
  getPath := sample_getPath;
  getCoinOutput := sample_getOutput "CoinOutputs";
  getBlockStakeOutput := sample_getOutput "BlockStakeOutputs";
  blockHeight := sample_blockHeight;
  blockTimeStamp := sample_blockTimeStamp;
  validateTransactionUsingPlugins := fun _ _ _ _ _ => None;
  applyTransaction := sample_applyTransaction;
  bucketForPlugin := fun _ _ name => name;
  range_plugins := fun _ m => map_to_list m;
  tg_Add := fun stopped : bool =>
    if stopped then (stopped, Some (errorString "ThreadGroup already stopped"))
    else (stopped, None);
  tg_Done := fun stopped : bool => stopped
|}.

(** The output a transaction spends must be unspent. *)
Definition spends_unspent : TransactionValidationFunction :=
  fun t _ csg => (UnspentCoinOutputGet csg (s_spends t)).2.

(** A block creating transaction is valid in a block only. *)
Definition block_creation_in_block : TransactionValidationFunction :=
  fun t ctx _ =>
    if s_block_creating t && negb (IsBlockCreatingTx (ctx_ValidationContext ctx))
    then Some (errorString "block creating transaction outside a block")
    else None.

(** A plugin that records in its bucket that it has seen a transaction. *)
Definition marker_plugin : ConsensusSetPlugin :=
  mkPlugin (fun _ _ _ bucket tx => Put tx bucket "seen" [x01]).

Definition sample_cs : ConsensusSet := {|
  txVersionMappedValidators := {[ 1%N := [block_creation_in_block] ]};
  txValidators := [spends_unspent];
  plugins := {[ "marker" := marker_plugin ]};
  chainCts := mkChainConstants 2000000 83 1%N
|}.

(** A store at height 1 whose tip, block ["b"], has timestamp 3, with one
    unspent coin output ["O"]. *)
Definition sample_root : gmap string (gmap string (list byte)) :=
  {[ "BlockHeight" := {[ "BlockHeight" := [x01] ]};
     "BlockPath" := {[ "I" := String.list_byte_of_string "b" ]};
     "BlockMap" := {[ "b" := [x00; x00] ]};
     "BlockTime" := {[ "b" := [x00; x00; x00] ]};
     "CoinOutputs" := {[ "O" := [x64] ]};
     "marker" := ∅ ]}.

Definition sample_world : World := mkWorld false (mkDB true sample_root) [].

(** The same store while the node shuts down. *)
Definition stopping_world : World := mkWorld true (mkDB true sample_root) [].

(** The same store without the path entry of its tip. *)
Definition torn_world : World :=
  mkWorld false (mkDB true (<["BlockPath" := ∅]> sample_root)) [].

Definition spend_O : SampleTx := mkSampleTx 1 10 "O" "P" false.
Definition spend_P : SampleTx := mkSampleTx 1 11 "P" "Q" false.
Definition creator : SampleTx := mkSampleTx 1 12 "O" "R" true.

End Scenario.

Module Disk.
Import Database.

(** A file holds the metadata of a store and its buckets.  Opening a path
    that has no file creates an empty store there; opening a file checks
    its header and its version; a conversion knows one older version. *)
Definition ErrBadHeader : error := errorString "wrong header".

Definition sample_OpenDatabase (md : Metadata) (filename : string)
    (fs : gmap string (Metadata * gmap string (gmap string (list byte))))
  : gmap string (Metadata * gmap string (gmap string (list byte)))
    * (option (gmap string (gmap string (list byte))) * option error) :=
  match fs !! filename with
  | None => (<[filename := (md, ∅)]> fs, (Some ∅, None))
  | Some (md', root) =>
      if decide (Header md' = Header md)
      then if decide (Version md' = Version md)
           then (fs, (Some root, None))
           else (fs, (None, Some ErrBadVersion))
      else (fs, (None, Some ErrBadHeader))
  end.

Definition sample_convertLegacyDatabase (filename : string)
    (fs : gmap string (Metadata * gmap string (gmap string (list byte))))
  : gmap string (Metadata * gmap string (gmap string (list byte)))
    * (option (gmap string (gmap string (list byte))) * option error) :=
  match fs !! filename with
  | None => (fs, (None, Some (errorString "no such file or directory")))
  | Some (md', root) =>
      if decide (Version md' = "0.5.0")
      then (<[filename := (dbMetadata, root)]> fs, (Some root, None))
      else if decide (Version md' = "0.5.1")
           then (fs, (None, Some (errorString "unexpected end of file")))
           else (fs, (None, Some ErrBadVersion))
  end.

Definition sample_Rename (oldpath newpath : string)
    (fs : gmap string (Metadata * gmap string (gmap string (list byte))))
  : gmap string (Metadata * gmap string (gmap string (list byte))) * option error :=
  match fs !! oldpath with
  | None => (fs, Some (errorString "no such file or directory"))
  | Some image => (<[newpath := image]> (delete oldpath fs), None)
  end.

Definition create_buckets (names : list string) (tx : Tx) : Tx * option error :=
  if tx_writable tx
  then (mkTx true (foldr (fun name root => <[name := ∅]> root) (tx_root tx) names), None)
  else (tx, Some ErrTxNotWritable).

(** The encoding of a boolean: one byte, 0 or 1. *)
Definition sample_Marshal_bool (b : bool) : list byte := [if b then x01 else x00].

Definition sample_Unmarshal_bool (bs : list byte) : error + bool :=
  match bs with
  | [x00] => inr false
  | [x01] => inr true
  | [] => inl (errorString "EOF")
  | [_] => inl (errorString "boolean value was not 0 or 1")
  | _ => inl (errorString "could not decode type bool")
  end.

#[export] Instance disk_env : Env := {|
  FS := gmap string (Metadata * gmap string (gmap string (list byte)));
  FileImage := Metadata * gmap string (gmap string (list byte));
  BoltDatabase := gmap string (gmap string (list byte));
  file_at := fun fs name => fs !! name;
  database_root := fun d => d;
  persist_OpenDatabase := sample_OpenDatabase;
  convertLegacyDatabase := sample_convertLegacyDatabase;
  os_Rename := sample_Rename;
  ErrBadVersion_text := "incompatible version";
  Consistency := "Consistency";
  BlockStakeOutputs := "BlockStakeOutputs";
  createConsensusDB :=
    create_buckets ["BlockPath"; "BlockMap"; "CoinOutputs"; "BlockStakeOutputs"; "Consistency"];
  createChangeLog := create_buckets ["ChangeLog"];
  siabin_Marshal_bool := sample_Marshal_bool;
  siabin_Unmarshal_bool := sample_Unmarshal_bool;
  build_Severe := fun _ => Returns tt
|}.

Definition old_image : Metadata * gmap string (gmap string (list byte)) :=
  (mkMetadata "Consensus Set Database" "0.4.0", {[ "Old" := {[ "k" := [x07] ]} ]}).

Definition damaged_image : Metadata * gmap string (gmap string (list byte)) :=
  (mkMetadata "Consensus Set Database" "0.5.1", ∅).

Definition foreign_image : Metadata * gmap string (gmap string (list byte)) :=
  (mkMetadata "Wallet Database" "1.1.0", ∅).

Definition host_with (image : Metadata * gmap string (gmap string (list byte))) : Host :=
  mkHost ({[ "consensus.db" := image ]} : gmap string _) (mkConsensusSet None) [].

(** A writable transaction on an empty store, and a transaction on a store
    whose consistency flag is not a boolean. *)
Definition fresh_tx : Tx := mkTx true ∅.
Definition garbled_tx : Tx := mkTx true {[ "Consistency" := {[ "Consistency" := [x02] ]} ]}.

End Disk.

(** * What a run of [TryTransactionSet] shows *)
Module TryTrace.
Import ValidTransaction.

Section Defs.
Context `{Env}.

(** The transactions handed to [applyTransaction], in order. *)
Definition applied_transactions (evs : list Event) : list Transaction :=
  omap (fun ev => match ev with EvApplyTransaction t => Some t | _ => None end) evs.

(** The warnings written to the log: transaction identifier and error. *)
Definition logged_warnings (evs : list Event) : list (TransactionID * error) :=
  omap (fun ev => match ev with EvPrintf id e => Some (id, e) | _ => None end) evs.

(** The calls on the shutdown coordinator, the lock and the store. *)
Definition is_bookkeeping (ev : Event) : bool :=
  match ev with
  | EvTgAdd | EvTgDone | EvRLock | EvRUnlock | EvUpdate => true
  | _ => false
  end.

End Defs.
End TryTrace.

(** * The faucet: authorising an address and dripping coins

    The second file under [pkg/config/config.go] (package [main]). *)
Module Faucet.

(** The types of other packages that the file mentions. *)
Class Types : Type := {
  UnlockHash : Type;
  Currency : Type;
  TransactionID : Type;
  TransactionNonce : Type;
  TransactionVersion : Type;
  Transaction : Type;
  UnlockConditionProxy : Type;
  UnlockHashCondition : Type;
  Signed : Type;
  Daemon : Type;
  TransactionID_zero : TransactionID;
  Signed_nil : Signed
}.

Definition errUnauthorized : error :=
  errorString "can't send coins to a currently unauthorized address".

Section Records.
Context `{Types}.

(** The fields of [authcointx.AuthAddressUpdateTransaction] that the file
    sets; it leaves the others at their zero value. *)
Record AuthAddressUpdateTransaction : Type := mkAuthAddressUpdateTransaction {
  Nonce : TransactionNonce;
  AuthAddresses : list UnlockHash;
  DeauthAddresses : list UnlockHash
}.

Record CoinOutput : Type := mkCoinOutput {
  Value : Currency;
  Condition : UnlockConditionProxy
}.

(** The field of [api.WalletCoinsPOST] that the file sets. *)
Record WalletCoinsPOST : Type := mkWalletCoinsPOST { CoinOutputs : list CoinOutput }.

Record GetAddressesAuthStateResponse : Type :=
  mkGetAddressesAuthStateResponse { AuthStates : list bool }.

(** What the two functions do to the outside, in order. *)
Inductive Event : Type :=
| EvPrintln (args : list string)
| EvGet (call : string)
| EvPost (call data : string).

End Records.

(** The functions of other packages that the file calls.  [Daemon] is the
    state of everything behind [httpClient] and of the random source.  A
    call that fills in a response through a pointer to a fresh variable
    returns what the variable holds afterwards. *)
Class Env `{Types} : Type := {
  UnlockHash_String : UnlockHash -> string;
  Currency_String : Currency -> string;
  RandomTransactionNonce : Daemon -> Daemon * TransactionNonce;
  TransactionVersionAuthAddressUpdateTx : TransactionVersion;
  AuthAddressUpdateTransaction_Transaction :
    AuthAddressUpdateTransaction -> TransactionVersion -> Transaction;
  NewUnlockHashCondition : UnlockHash -> UnlockHashCondition;
  NewCondition : UnlockHashCondition -> UnlockConditionProxy;
  Marshal_Transaction : Transaction -> string * option error;
  Marshal_Signed : Signed -> string * option error;
  Marshal_WalletCoinsPOST : WalletCoinsPOST -> string * option error;
  GetAPI_AuthState :
    string -> Daemon -> Daemon * (GetAddressesAuthStateResponse * option error);
  PostResp_Signed : string -> string -> Daemon -> Daemon * (Signed * option error);
  PostResp_TransactionID :
    string -> string -> Daemon -> Daemon * (TransactionID * option error)
}.

Section Defs.
Context `{Env}.

Definition updateAddressAuthorization (address : UnlockHash) (authorize : bool)
    (d : Daemon) : Daemon * list Event * (TransactionID * option error) :=
  let '(d1, nonce) := RandomTransactionNonce d in
  let tx := mkAuthAddressUpdateTransaction nonce [] [] in
  let '(tx, ev1) :=
    if authorize
    then (mkAuthAddressUpdateTransaction (Nonce tx) [address] (DeauthAddresses tx),
          [EvPrintln ["[DEBUG] Updating address"; UnlockHash_String address;
                      "to be authorized"]])
    else (mkAuthAddressUpdateTransaction (Nonce tx) (AuthAddresses tx) [address],
          [EvPrintln ["[DEBUG] Updating address"; UnlockHash_String address;
                      "to be deauthorized"]]) in
  let ev2 := ev1 ++ [EvPrintln ["[DEBUG] Signing authorization transaction"]] in
  let '(data, err) :=
    Marshal_Transaction
      (AuthAddressUpdateTransaction_Transaction tx TransactionVersionAuthAddressUpdateTx) in
  match err with
  | Some e => (d1, ev2, (TransactionID_zero, Some e))
  | None =>
      let '(d2, (signedTx, err)) := PostResp_Signed "/wallet/sign" data d1 in
      let ev3 := ev2 ++ [EvPost "/wallet/sign" data] in
      match err with
      | Some e => (d2, ev3, (TransactionID_zero, Some e))
      | None =>
          let ev4 := ev3 ++ [EvPrintln ["[DEBUG] Pushing authorization transaction"]] in
          let '(data, err) := Marshal_Signed signedTx in
          match err with
          | Some e => (d2, ev4, (TransactionID_zero, Some e))
          | None =>
              let '(d3, (resp, err)) :=
                PostResp_TransactionID "/transactionpool/transactions" data d2 in
              (d3, ev4 ++ [EvPost "/transactionpool/transactions" data], (resp, err))
          end
      end
  end.

Definition dripCoins (address : UnlockHash) (amount : Currency) (d : Daemon)
  : Daemon * list Event * (TransactionID * option error) :=
  let call := "/consensus/authcoin/status?addr=" +:+ UnlockHash_String address in
  let '(d1, (result, err)) := GetAPI_AuthState call d in
  let ev1 := [EvGet call] in
  match err with
  | Some e => (d1, ev1, (TransactionID_zero, Some e))
  | None =>
      match AuthStates result with
      | [] =>
          (d1, ev1,
           (TransactionID_zero,
            Some (errorString
                    ("failed to check authorization state for address "
                     +:+ UnlockHash_String address
                     +:+ ": no auth states or error returned"))))
      | _ :: _ :: _ =>
          (d1, ev1,
           (TransactionID_zero,
            Some (errorString
                    ("failed to check authorization state for address "
                     +:+ UnlockHash_String address
                     +:+ ": ambiguity issue: more than one auth state returned, while one was expected"))))
      | [false] => (d1, ev1, (TransactionID_zero, Some errUnauthorized))
      | [true] =>
          let '(data, err) :=
            Marshal_WalletCoinsPOST
              (mkWalletCoinsPOST
                 [mkCoinOutput amount (NewCondition (NewUnlockHashCondition address))]) in
          match err with
          | Some e => (d1, ev1, (TransactionID_zero, Some e))
          | None =>
              let ev2 :=
                ev1 ++ [EvPrintln ["[DEBUG] Dripping"; Currency_String amount;
                                   "coins to address"; UnlockHash_String address]] in
              let '(d2, (resp, err)) := PostResp_TransactionID "/wallet/coins" data d1 in
              let ev3 := ev2 ++ [EvPost "/wallet/coins" data] in
              match err with
              | Some e =>
                  (d2, ev3 ++ [EvPrintln ["[ERROR] /wallet/coins - request body:"; data]],
                   (resp, Some e))
              | None => (d2, ev3, (resp, None))
              end
          end
      end
  end.

(** The requests that change the daemon, in order. *)
Definition posts (evs : list Event) : list (string * string) :=
  omap (fun ev => match ev with EvPost call data => Some (call, data) | _ => None end) evs.

End Defs.

(** A daemon that knows which addresses are authorised, signs by tagging,
    and numbers the transactions it accepts. *)
Module Sample.

Record SampleDaemon : Type := mkSampleDaemon {
  authorised : list string;
  accepted : list string;
  wallet_locked : bool
}.

#[export] Instance sample_types : Types := {|
  UnlockHash := string;
  Currency := string;
  TransactionID := nat;
  TransactionNonce := string;
  TransactionVersion := string;
  Transaction := string * (string * list string * list string);
  UnlockConditionProxy := string;
  UnlockHashCondition := string;
  Signed := string;
  Daemon := SampleDaemon;
  TransactionID_zero := 0;
  Signed_nil := ""
|}.

Definition render (parts : list string) : string := String.concat "," parts.

Definition accept_post (data : string) (d : SampleDaemon)
  : SampleDaemon * (nat * option error) :=
  if wallet_locked d
  then (d, (0, Some (errorString "wallet must be unlocked before it can be used")))
  else (mkSampleDaemon (authorised d) (accepted d ++ [data]) false,
        (S (length (accepted d)), None)).

#[export] Instance sample_env : @Env sample_types := {|
  UnlockHash_String := fun a => a;
  Currency_String := fun c => c;
  RandomTransactionNonce := fun d => (d, "n42");
  TransactionVersionAuthAddressUpdateTx := "v176";
  AuthAddressUpdateTransaction_Transaction :=
    fun tx v => (v, (Nonce tx, AuthAddresses tx, DeauthAddresses tx));
  NewUnlockHashCondition := fun a : string => a;
  NewCondition := fun c : string => c;
  Marshal_Transaction :=
    fun (t : string * (string * list string * list string)) =>
      ("tx:" +:+ t.1 +:+ ":" +:+ t.2.1.1
         +:+ ":+" +:+ render t.2.1.2 +:+ ":-" +:+ render t.2.2, None);
  Marshal_Signed := fun s : string => (s, None);
  Marshal_WalletCoinsPOST :=
    fun body =>
      (render ((fun o => Value o +:+ "->" +:+ Condition o) <$> CoinOutputs body),
       None);
  GetAPI_AuthState :=
    fun call d =>
      match String.index 0 "=" call with
      | Some i =>
          (d, (mkGetAddressesAuthStateResponse
                 [bool_decide (String.substring (S i) (String.length call - S i) call
                               ∈ authorised d)],
               None))
      | None => (d, (mkGetAddressesAuthStateResponse [], None))
      end;
  PostResp_Signed :=
    fun _ data d =>
      if wallet_locked d
      then (d, ("", Some (errorString "wallet must be unlocked before it can be used")))
      else (d, ("signed:" +:+ data, None));
  PostResp_TransactionID := fun _ data d => accept_post data d
|}.

Definition open_daemon : SampleDaemon := mkSampleDaemon ["alice"] [] false.
Definition locked_daemon : SampleDaemon := mkSampleDaemon ["alice"] [] true.

End Sample.
End Faucet.

(** * The chain constants of the three networks

    The first file under [pkg/config/config.go] (package [config]). *)
From Stdlib Require QArith.

Module Config.

(** [types.Currency] is a non-negative big integer; [Mul64] and [Div64]
    multiply it with and divide it by a [uint64]. *)
Definition Currency : Type := N.
Definition NewCurrency64 (x : N) : Currency := x.
Definition Mul64 (c : Currency) (y : N) : Currency := (c * y)%N.
Definition Div64 (c : Currency) (y : N) : Currency := (c / y)%N.

(** [big.NewRat(a, b)] *)
Definition NewRat (a b : Z) : QArith_base.Q := QArith_base.Qmake a (Z.to_pos b).

Class Types : Type := {
  UnlockHash : Type;
  UnlockHashCondition : Type;
  UnlockConditionProxy : Type;
  TransactionVersion : Type;
  ProtocolVersion : Type;
  OtherConstants : Type
}.

Section Records.
Context `{Types}.

Record CoinOutput : Type := mkCoinOutput {
  co_Value : Currency;
  co_Condition : UnlockConditionProxy
}.

Record BlockStakeOutput : Type := mkBlockStakeOutput {
  bso_Value : Currency;
  bso_Condition : UnlockConditionProxy
}.

(** The fields of [types.ChainConstants] that the file reads or writes;
    [OtherConstants] stands for the fields it passes on as they are. *)
Record ChainConstants : Type := mkChainConstants {
  DefaultTransactionVersion : TransactionVersion;
  GenesisTransactionVersion : TransactionVersion;
  BlockFrequency : N;
  MaturityDelay : N;
  MedianTimestampWindow : N;
  GenesisTimestamp : N;
  TargetWindow : N;
  MaxAdjustmentUp : QArith_base.Q;
  MaxAdjustmentDown : QArith_base.Q;
  FutureThreshold : N;
  ExtremeFutureThreshold : N;
  StakeModifierDelay : N;
  BlockStakeAging : N;
  BlockCreatorFee : Currency;
  MinimumTransactionFee : Currency;
  TransactionFeeCondition : UnlockConditionProxy;
  GenesisCoinDistribution : list CoinOutput;
  GenesisBlockStakeAllocation : list BlockStakeOutput;
  OneCoin : Currency;
  other_constants : OtherConstants
}.

Record BlockchainInfo : Type := mkBlockchainInfo {
  Name : string;
  NetworkName : string;
  CoinUnit : string;
  ChainVersion : ProtocolVersion;
  info_ProtocolVersion : ProtocolVersion
}.

End Records.

(** The functions and values of other packages that the file uses.
    [LoadString s] is [uh.LoadString(s)] on a zero [uh]: what [uh] holds
    afterwards, and the error. *)
Class Env `{Types} : Type := {
  LoadString : string -> UnlockHash * option error;
  NewUnlockHashCondition : UnlockHash -> UnlockHashCondition;
  NewCondition : UnlockHashCondition -> UnlockConditionProxy;
  TransactionVersionOne : TransactionVersion;
  StandardnetChainConstants : ChainConstants;
  TestnetChainConstants : ChainConstants;
  DevnetChainConstants : ChainConstants;
  build_Version : ProtocolVersion;
  build_MustParse : string -> outcome ProtocolVersion
}.

Section Defs.
Context `{Env}.

Definition rawVersion : string := "v0.2".
Definition GolchainTokenUnit : string := "GFT".
Definition GoldchainTokenChainName : string := "goldchain".
Definition NetworkNameStandard : string := "standard".
Definition NetworkNameTest : string := "testnet".
Definition NetworkNameDev : string := "devnet".
Definition config_BlockFrequency : N := 120.

(** [init]: the value of the package variable [Version]. *)
Definition init : outcome ProtocolVersion := build_MustParse rawVersion.

Definition GetBlockchainInfo (Version : ProtocolVersion) : BlockchainInfo :=
  {| Name := GoldchainTokenChainName;
     NetworkName := NetworkNameTest;
     CoinUnit := GolchainTokenUnit;
     ChainVersion := Version;
     info_ProtocolVersion := build_Version |}.

Definition unlockHashFromHex (hstr : string) : outcome UnlockHash :=
  let '(uh, err) := LoadString hstr in
  match err with
  | Some _ => Panics
  | None => Returns uh
  end.

(** Sequencing of calls that may panic. *)
Definition and_then {A B : Type} (a : outcome A) (k : A -> outcome B) : outcome B :=
  match a with
  | Returns x => k x
  | Panics => Panics
  end.

Definition hash_condition (uh : UnlockHash) : UnlockConditionProxy :=
  NewCondition (NewUnlockHashCondition uh).

Definition GetStandardnetGenesis : outcome ChainConstants :=
  let cfg := StandardnetChainConstants in
  and_then (unlockHashFromHex "") (fun fee_pool =>
  and_then (unlockHashFromHex "") (fun stake1 =>
  and_then (unlockHashFromHex "") (fun stake2 =>
  Returns
    {| DefaultTransactionVersion := TransactionVersionOne;
       GenesisTransactionVersion := TransactionVersionOne;
       BlockFrequency := config_BlockFrequency;
       MaturityDelay := 720;
       MedianTimestampWindow := MedianTimestampWindow cfg;
       GenesisTimestamp := 1522501000;
       TargetWindow := 1000;
       MaxAdjustmentUp := NewRat 25 10;
       MaxAdjustmentDown := NewRat 10 25;
       FutureThreshold := 1 * 60 * 60;
       ExtremeFutureThreshold := 2 * 60 * 60;
       StakeModifierDelay := 2000;
       BlockStakeAging := N.shiftl 1 17;
       BlockCreatorFee := Mul64 (OneCoin cfg) 0;
       MinimumTransactionFee := Div64 (OneCoin cfg) 1000;
       TransactionFeeCondition := hash_condition fee_pool;
       GenesisCoinDistribution := [];
       GenesisBlockStakeAllocation :=
         [mkBlockStakeOutput (NewCurrency64 100) (hash_condition stake1);
          mkBlockStakeOutput (NewCurrency64 10) (hash_condition stake2)];
       OneCoin := OneCoin cfg;
       other_constants := other_constants cfg |}))).

Definition testnet_address : string :=
  "01215a03f0098c4fcd801854da4d7bb2e9c78b4d3598fec89f42bc19fb79889bbf7a6aabdbe95f".

Definition devnet_address : string :=
  "015a080a9259b9d4aaa550e2156f49b1a79a64c7ea463d810d4493e8242e6791584fbdac553e6f".

Definition GetTestnetGenesis : outcome ChainConstants :=
  let cfg := TestnetChainConstants in
  and_then (unlockHashFromHex testnet_address) (fun coins =>
  and_then (unlockHashFromHex testnet_address) (fun stakes =>
  Returns
    {| DefaultTransactionVersion := TransactionVersionOne;
       GenesisTransactionVersion := TransactionVersionOne;
       BlockFrequency := config_BlockFrequency;
       MaturityDelay := 720;
       MedianTimestampWindow := MedianTimestampWindow cfg;
       GenesisTimestamp := 1564142400;
       TargetWindow := 1000;
       MaxAdjustmentUp := NewRat 25 10;
       MaxAdjustmentDown := NewRat 10 25;
       FutureThreshold := 1 * 60 * 60;
       ExtremeFutureThreshold := 2 * 60 * 60;
       StakeModifierDelay := 2000;
       BlockStakeAging := N.shiftl 1 6;
       BlockCreatorFee := Mul64 (OneCoin cfg) 0;
       MinimumTransactionFee := Div64 (OneCoin cfg) 1000;
       TransactionFeeCondition := TransactionFeeCondition cfg;
       GenesisCoinDistribution :=
         [mkCoinOutput (Mul64 (OneCoin cfg) (100 * 1000 * 1000)) (hash_condition coins)];
       GenesisBlockStakeAllocation :=
         [mkBlockStakeOutput (NewCurrency64 3000) (hash_condition stakes)];
       OneCoin := OneCoin cfg;
       other_constants := other_constants cfg |})).

Definition GetDevnetGenesis : outcome ChainConstants :=
  let cfg := DevnetChainConstants in
  and_then (unlockHashFromHex devnet_address) (fun coins =>
  and_then (unlockHashFromHex devnet_address) (fun stakes =>
  Returns
    {| DefaultTransactionVersion := TransactionVersionOne;
       GenesisTransactionVersion := TransactionVersionOne;
       BlockFrequency := 12;
       MaturityDelay := 10;
       MedianTimestampWindow := 11;
       GenesisTimestamp := 1519200000;
       TargetWindow := 20;
       MaxAdjustmentUp := NewRat 120 100;
       MaxAdjustmentDown := NewRat 100 120;
       FutureThreshold := 2 * 60;
       ExtremeFutureThreshold := 4 * 60;
       StakeModifierDelay := 2000;
       BlockStakeAging := N.shiftl 1 6;
       BlockCreatorFee := Mul64 (OneCoin cfg) 10;
       MinimumTransactionFee := Mul64 (OneCoin cfg) 1;
       TransactionFeeCondition := TransactionFeeCondition cfg;
       GenesisCoinDistribution :=
         [mkCoinOutput (Mul64 (OneCoin cfg) (100 * 1000 * 1000)) (hash_condition coins)];
       GenesisBlockStakeAllocation :=
         [mkBlockStakeOutput (NewCurrency64 3000) (hash_condition stakes)];
       OneCoin := OneCoin cfg;
       other_constants := other_constants cfg |})).

Definition GetStandardnetGenesisAuthCoinCondition : outcome UnlockConditionProxy :=
  and_then (unlockHashFromHex devnet_address) (fun uh => Returns (hash_condition uh)).

Definition GetTestnetGenesisAuthCoinCondition : outcome UnlockConditionProxy :=
  and_then (unlockHashFromHex testnet_address) (fun uh => Returns (hash_condition uh)).

Definition GetDevnetGenesisAuthCoinCondition : outcome UnlockConditionProxy :=
  and_then (unlockHashFromHex devnet_address) (fun uh => Returns (hash_condition uh)).

Definition GetStandardnetBootstrapPeers : list string :=
  ["bootstrap1.goldtoken.bnh.com:22112";
   "bootstrap2.goldtoken.bnh.com:22112";
   "bootstrap3.goldtoken.bnh.com:22112";
   "bootstrap4.goldtoken.bnh.com:22112";
   "bootstrap5.goldtoken.bnh.com:22112"].

Definition GetTestnetBootstrapPeers : list string :=
  ["bootstrap1.testnet.nbh-digital.com:22112";
   "bootstrap2.testnet.nbh-digital.com:22112";
   "bootstrap3.testnet.nbh-digital.com:22112";
   "bootstrap4.testnet.nbh-digital.com:22112";
   "bootstrap5.testnet.nbh-digital.com:22112"].

Definition GetDevnetBootstrapPeers : list string := ["localhost:22112"].

(** The relations between the constants that the comments of the file
    state or that the difficulty adjustment relies on. *)
Definition coherent (seconds_to_mature : N) (cfg : ChainConstants) : Prop :=
  DefaultTransactionVersion cfg = GenesisTransactionVersion cfg
  /\ (BlockFrequency cfg * MaturityDelay cfg = seconds_to_mature)%N
  /\ (ExtremeFutureThreshold cfg = 2 * FutureThreshold cfg)%N
  /\ QArith_base.Qeq
       (QArith_base.Qmult (MaxAdjustmentUp cfg) (MaxAdjustmentDown cfg))
       (QArith_base.Qmake 1 1)
  /\ QArith_base.Qlt (MaxAdjustmentDown cfg) (QArith_base.Qmake 1 1)
  /\ QArith_base.Qlt (QArith_base.Qmake 1 1) (MaxAdjustmentUp cfg).

End Defs.

(** Units of 10^9 per coin, and a decoder that accepts the strings of 78
    hexadecimal characters. *)
Module Sample.

#[export] Instance sample_types : Types := {|
  UnlockHash := string;
  UnlockHashCondition := string;
  UnlockConditionProxy := string;
  TransactionVersion := N;
  ProtocolVersion := string;
  OtherConstants := unit
|}.

Definition sample_base : ChainConstants :=
  mkChainConstants 0%N 0%N 600 144 11 1496322000 1000
    (NewRat 25 10) (NewRat 10 25) 10800 18000 2000 64 0%N 0%N "" [] []
    1000000000%N tt.

Definition sample_LoadString (s : string) : string * option error :=
  if decide (String.length s = 78) then (s, None)
  else ("", Some (errorString "marshalled unlock hash is the wrong length")).

#[export] Instance sample_env : @Env sample_types := {|
  LoadString := sample_LoadString;
  NewUnlockHashCondition := fun uh => uh;
  NewCondition := fun c => c;
  TransactionVersionOne := 1%N;
  StandardnetChainConstants := sample_base;
  TestnetChainConstants := sample_base;
  DevnetChainConstants := sample_base;
  build_Version := "1.2.0";
  build_MustParse := fun s => Returns s
|}.

(** A decoder that also reads the empty string, as the nil hash. *)
Definition lenient_LoadString (s : string) : string * option error :=
  if decide (s = "") then ("", None) else sample_LoadString s.

Definition lenient_env : @Env sample_types := {|
  LoadString := lenient_LoadString;
  NewUnlockHashCondition := fun uh => uh;
  NewCondition := fun c => c;
  TransactionVersionOne := 1%N;
  StandardnetChainConstants := sample_base;
  TestnetChainConstants := sample_base;
  DevnetChainConstants := sample_base;
  build_Version := "1.2.0";
  build_MustParse := fun s => Returns s
|}.

End Sample.
End Config.

(** * Properties of validtransaction.go *)
Section ValidTransactionProperties.
Import ValidTransaction.
Context `{Env}.

Lemma run_validators_stages scope i validators t ctx csg :
  let stages := validator_stages scope i validators t ctx csg in
  (Forall (fun s => s.2 = None) stages
   /\ run_validators scope i validators t ctx csg = (stages.*1, None))
  \/ (exists pre c post e,
        stages = pre ++ c :: post
        /\ Forall (fun s => s.2 = None) pre
        /\ c.2 = Some e
        /\ run_validators scope i validators t ctx csg = (pre.*1 ++ [c.1], Some e)).
Proof.
  revert i. induction validators as [|v rest IH]; intros i; simpl.
  - left. split; [constructor | reflexivity].
  - destruct (v t ctx csg) as [e|] eqn:Hv.
    + right. exists [], (EvValidator scope i t ctx, Some e),
        (validator_stages scope (S i) rest t ctx csg), e.
      split_and!; [reflexivity | constructor | reflexivity | reflexivity].
    + destruct (IH (S i)) as [[Hall Hrun]|(pre & c & post & e & Hst & Hpre & Hc & Hrun)];
        simpl in *; rewrite Hrun.
      * left. split; [constructor; [reflexivity | exact Hall] | reflexivity].
      * right. exists ((EvValidator scope i t ctx, None) :: pre), c, post, e.
        rewrite Hst. split_and!; [reflexivity | by constructor | exact Hc | reflexivity].
Qed.

(** C3.  [validTransaction] works in the context built from its arguments
    with [Confirmed = true].  Of the stages in their specified order (the
    validators registered for the transaction's version, if any; the global
    validators; the plugin validators) it invokes exactly an initial
    segment, in order, all with that context: every stage before the last
    invoked one reported nil, the error returned is the verdict of the last
    invoked one, and when that verdict is nil no stage is left. *)
Theorem validTransaction_first_error cs tx t constants height timestamp isBlockCreating :
  exists pre c post,
    validation_stages cs tx t
        (supplied_context constants height timestamp isBlockCreating)
      = pre ++ c :: post
    /\ Forall (fun s => s.2 = None) pre
    /\ (c.2 = None -> post = [])
    /\ validTransaction cs tx t constants height timestamp isBlockCreating
       = (pre.*1 ++ [c.1], c.2).
Proof.
  unfold validTransaction, validation_stages, supplied_context.
  set (ctx := mkTransactionValidationContext _ _ _ _).
  set (csg := newConsensusStateGetter tx).
  set (last := (EvPluginValidators t ctx, _)).
  assert (Hver : match txVersionMappedValidators cs !! Version t with
                 | Some vs => run_validators VersionSpecific 0 vs t ctx csg
                 | None => ([], None)
                 end
                 = run_validators VersionSpecific 0
                     (default [] (txVersionMappedValidators cs !! Version t)) t ctx csg)
    by (destruct (txVersionMappedValidators cs !! Version t); reflexivity).
  rewrite Hver. clear Hver.
  generalize (default [] (txVersionMappedValidators cs !! Version t)). intros vs.
  destruct (run_validators_stages VersionSpecific 0 vs t ctx csg)
    as [[Hall1 Hrun1]|(pre & c & post & e & Hst & Hpre & Hc & Hrun)];
    simpl in *.
  - rewrite Hrun1.
    destruct (run_validators_stages Global 0 (txValidators cs) t ctx csg)
      as [[Hall2 Hrun2]|(pre & c & post & e & Hst & Hpre & Hc & Hrun)];
      simpl in *.
    + rewrite Hrun2.
      exists (validator_stages VersionSpecific 0 vs t ctx csg
                ++ validator_stages Global 0 (txValidators cs) t ctx csg), last, [].
      split; [by rewrite <- (assoc_L (++))|].
      split; [by apply Forall_app|].
      split; [done|].
      by rewrite fmap_app, <- (assoc_L (++)).
    + rewrite Hrun, Hst.
      exists (validator_stages VersionSpecific 0 vs t ctx csg ++ pre), c, (post ++ [last]).
      split; [by rewrite <- !(assoc_L (++))|].
      split; [by apply Forall_app|].
      split; [congruence|].
      by rewrite fmap_app, Hc, <- (assoc_L (++)).
  - rewrite Hrun, Hst.
    exists pre, c,
      (post ++ validator_stages Global 0 (txValidators cs) t ctx csg ++ [last]).
    split; [by rewrite <- !(assoc_L (++))|].
    split; [done|].
    split; [congruence|].
    by rewrite Hc.
Qed.

Lemma run_validators_events (P : Event -> Prop) scope i validators t ctx csg :
  (forall j, P (EvValidator scope j t ctx)) ->
  Forall P (run_validators scope i validators t ctx csg).1.
Proof.
  intros HP. revert i. induction validators as [|v rest IH]; intros i; simpl.
  - constructor.
  - destruct (v t ctx csg).
    + repeat constructor. apply HP.
    + specialize (IH (S i)).
      destruct (run_validators scope (S i) rest t ctx csg) as [evs r].
      constructor; [apply HP | exact IH].
Qed.

Lemma validTransaction_events (P : Event -> Prop) cs tx t constants height timestamp flag :
  let ctx := supplied_context constants height timestamp flag in
  (forall scope j, P (EvValidator scope j t ctx)) ->
  P (EvPluginValidators t ctx) ->
  Forall P (validTransaction cs tx t constants height timestamp flag).1.
Proof.
  intros ctx HP HQ. unfold validTransaction.
  fold (supplied_context constants height timestamp flag). fold ctx.
  set (csg := newConsensusStateGetter tx).
  assert (H1 : Forall P
            (match txVersionMappedValidators cs !! Version t with
             | Some vs => run_validators VersionSpecific 0 vs t ctx csg
             | None => ([], None)
             end).1).
  { destruct (txVersionMappedValidators cs !! Version t).
    - by apply run_validators_events.
    - constructor. }
  destruct (match txVersionMappedValidators cs !! Version t with
            | Some vs => run_validators VersionSpecific 0 vs t ctx csg
            | None => ([], None)
            end) as [ev1 [e|]]; simpl in *; [done|].
  pose proof (run_validators_events P Global 0 (txValidators cs) t ctx csg (HP Global)) as H2.
  destruct (run_validators Global 0 (txValidators cs) t ctx csg) as [ev2 [e|]]; simpl in *.
  - by apply Forall_app.
  - apply Forall_app. split; [done|]. apply Forall_app. split; [done|].
    by repeat constructor.
Qed.

Lemma apply_plugins_events (P : Event -> Prop) cs entries txn diffHolder tx :
  (forall name, P (EvPluginApply name txn (pb_Block diffHolder) (pb_Height diffHolder))) ->
  Forall P (apply_plugins cs entries txn diffHolder tx).1.2.
Proof.
  intros HP. revert tx. induction entries as [|[name plugin] rest IH]; intros tx; simpl.
  - constructor.
  - destruct (ApplyTransaction plugin txn _ _ _ tx) as [tx1 [e|]]; simpl.
    + repeat constructor. apply HP.
    + specialize (IH tx1).
      destruct (apply_plugins cs rest txn diffHolder tx1) as [[tx2 evs] r]; simpl in *.
      constructor; [apply HP | exact IH].
Qed.

Lemma first_error_app (a b : list (Event * option error)) :
  first_error (a ++ b)
  = match first_error a with
    | Some e => Some e
    | None => first_error b
    end.
Proof.
  induction a as [|[ev [e|]] a IH]; simpl; [done | done | exact IH].
Qed.

Lemma run_validators_first scope i validators t ctx csg :
  (run_validators scope i validators t ctx csg).2
  = first_error (validator_stages scope i validators t ctx csg).
Proof.
  revert i. induction validators as [|v rest IH]; intros i; simpl; [done|].
  destruct (v t ctx csg) as [e|]; [done|].
  specialize (IH (S i)).
  by destruct (run_validators scope (S i) rest t ctx csg) as [evs r].
Qed.

Lemma validTransaction_first cs tx t constants height timestamp flag :
  (validTransaction cs tx t constants height timestamp flag).2
  = first_error
      (validation_stages cs tx t (supplied_context constants height timestamp flag)).
Proof.
  unfold validTransaction, validation_stages, supplied_context.
  set (ctx := mkTransactionValidationContext _ _ _ _).
  set (csg := newConsensusStateGetter tx).
  rewrite !first_error_app, <- !run_validators_first. simpl.
  destruct (txVersionMappedValidators cs !! Version t) as [vs|]; simpl.
  - destruct (run_validators VersionSpecific 0 vs t ctx csg) as [ev1 [e|]]; simpl; [done|].
    destruct (run_validators Global 0 (txValidators cs) t ctx csg) as [ev2 [e|]];
      simpl; [done|].
    by destruct (validateTransactionUsingPlugins cs t ctx csg tx).
  - destruct (run_validators Global 0 (txValidators cs) t ctx csg) as [ev2 [e|]];
      simpl; [done|].
    by destruct (validateTransactionUsingPlugins cs t ctx csg tx).
Qed.

Lemma apply_plugins_hooks cs entries txn diffHolder tx :
  (apply_plugins cs entries txn diffHolder tx).2
    = first_hook_error cs txn diffHolder entries tx
  /\ (first_hook_error cs txn diffHolder entries tx = None ->
      (apply_plugins cs entries txn diffHolder tx).1.1
      = after_hooks cs txn diffHolder entries tx).
Proof.
  revert tx. induction entries as [|[name plugin] rest IH]; intros tx; simpl; [done|].
  unfold apply_hook. simpl.
  destruct (ApplyTransaction plugin txn _ _ _ tx) as [tx1 [e|]]; simpl; [done|].
  specialize (IH tx1).
  by destruct (apply_plugins cs rest txn diffHolder tx1) as [[tx2 evs] r].
Qed.

Lemma hooks_succeed_first cs txn diffHolder entries tx :
  hooks_succeed cs txn diffHolder entries tx
  <-> first_hook_error cs txn diffHolder entries tx = None.
Proof.
  revert tx. induction entries as [|entry rest IH]; intros tx; simpl; [done|].
  destruct (apply_hook cs txn diffHolder entry tx).2 as [e|] eqn:Hhook.
  - split; [by intros [? _] | done].
  - rewrite IH. tauto.
Qed.

Lemma batch_passes_first cs blockTime k txns diffHolder tx :
  batch_passes cs blockTime k txns diffHolder tx
  <-> first_rejection cs blockTime k txns diffHolder tx = None.
Proof.
  revert k diffHolder tx.
  induction txns as [|txn rest IH]; intros k diffHolder tx; simpl; [done|].
  unfold passes_validation.
  destruct (first_error _) as [e|]; [split; [by intros [? _] | done]|].
  rewrite hooks_succeed_first.
  destruct (first_hook_error _ _ _ _ _) as [e|]; [split; [by intros (_ & ? & _) | done]|].
  rewrite IH, fmap_None. tauto.
Qed.

Lemma try_loop_rejection cs k txns blockTime diffHolder tx :
  (try_loop cs k txns blockTime diffHolder tx).2
    = rej_error <$> first_rejection cs blockTime k txns diffHolder tx
  /\ (first_rejection cs blockTime k txns diffHolder tx = None ->
      (try_loop cs k txns blockTime diffHolder tx).1.1.2
      = accumulated cs k txns diffHolder tx).
Proof.
  revert k diffHolder tx.
  induction txns as [|txn rest IH]; intros k diffHolder tx; simpl; [done|].
  pose proof (validTransaction_first cs tx txn (try_constants cs)
                (pb_Height diffHolder) blockTime false) as Hv.
  unfold try_constants in *.
  destruct (validTransaction cs tx txn _ _ _ false) as [ev1 verdict]. simpl in Hv.
  rewrite <- Hv. destruct verdict as [e|]; simpl; [done|].
  destruct (applyTransaction tx diffHolder txn) as [tx1 diffHolder1]. simpl.
  destruct (apply_plugins_hooks cs (range_plugins k (plugins cs)) txn diffHolder1 tx1)
    as [Herr Hstate].
  destruct (apply_plugins cs _ txn diffHolder1 tx1) as [[tx2 ev2] r]. simpl in *.
  rewrite <- Herr in *. destruct r as [e|]; simpl; [done|].
  rewrite <- (Hstate eq_refl).
  destruct (IH (S k) diffHolder1 tx2) as [IHerr IHacc].
  destruct (try_loop cs (S k) rest _ diffHolder1 tx2) as [[[tx3 dh3] ev3] r3]. simpl in *.
  split.
  - rewrite IHerr. by destruct (first_rejection cs blockTime (S k) rest diffHolder1 tx2).
  - rewrite fmap_None. exact IHacc.
Qed.

Lemma try_loop_rejects cs k txns blockTime diffHolder tx t :
  t ∈ txns ->
  only_valid_as_block_creating cs t ->
  (try_loop cs k txns blockTime diffHolder tx).2 <> None.
Proof.
  intros Hin Ht. revert k diffHolder tx.
  induction txns as [|txn rest IH]; intros k diffHolder tx; [by apply not_elem_of_nil in Hin|].
  simpl.
  pose proof (Ht tx
    {| BlockSizeLimit := cts_BlockSizeLimit (chainCts cs);
       ArbitraryDataSizeLimit := cts_ArbitraryDataSizeLimit (chainCts cs);
       MinimumMinerFee := MinimumTransactionFee (chainCts cs) |}
    (pb_Height diffHolder) blockTime) as Hbad.
  destruct (validTransaction cs tx txn _ _ _ false) as [ev1 [e|]] eqn:Hv; simpl; [done|].
  apply elem_of_cons in Hin as [->|Hin].
  { rewrite Hv in Hbad. by destruct Hbad. }
  clear Hbad.
  destruct (applyTransaction tx diffHolder txn) as [tx1 diffHolder1].
  destruct (apply_plugins cs _ txn diffHolder1 tx1) as [[tx2 ev2] [e|]]; simpl; [done|].
  specialize (IH Hin (S k) diffHolder1 tx2).
  by destruct (try_loop cs (S k) rest _ diffHolder1 tx2) as [[[tx3 dh3] ev3] r3].
Qed.

Lemma try_loop_tip_context tx0 cs k txns diffHolder tx :
  (forall tx pb t, pb_Height (applyTransaction tx pb t).2 = pb_Height pb) ->
  pb_Height diffHolder = blockHeight tx0 ->
  Forall (in_tip_context tx0)
    (try_loop cs k txns (blockTimeStamp tx0 (blockHeight tx0)).1 diffHolder tx).1.2.
Proof.
  intros Hkeep. revert k diffHolder tx.
  induction txns as [|txn rest IH]; intros k diffHolder tx Hh; simpl; [constructor|].
  assert (Hv : Forall (in_tip_context tx0)
            (validTransaction cs tx txn
               {| BlockSizeLimit := cts_BlockSizeLimit (chainCts cs);
                  ArbitraryDataSizeLimit := cts_ArbitraryDataSizeLimit (chainCts cs);
                  MinimumMinerFee := MinimumTransactionFee (chainCts cs) |}
               (pb_Height diffHolder) (blockTimeStamp tx0 (blockHeight tx0)).1 false).1).
  { apply validTransaction_events; [intros ? ?|]; simpl; by rewrite Hh. }
  destruct (validTransaction cs tx txn _ _ _ false) as [ev1 [e|]]; simpl in *.
  { apply Forall_app. split; [done|]. by repeat constructor. }
  pose proof (Hkeep tx diffHolder txn) as Hh1.
  destruct (applyTransaction tx diffHolder txn) as [tx1 diffHolder1]. simpl in Hh1.
  pose proof (apply_plugins_events (in_tip_context tx0) cs
    (range_plugins k (plugins cs)) txn diffHolder1 tx1 (fun _ => I)) as Hp.
  destruct (apply_plugins cs _ txn diffHolder1 tx1) as [[tx2 ev2] [e|]]; simpl in *.
  { apply Forall_app. split; [done|]. by constructor. }
  specialize (IH (S k) diffHolder1 tx2 ltac:(congruence)).
  destruct (try_loop cs (S k) rest _ diffHolder1 tx2) as [[[tx3 dh3] ev3] r3]; simpl in *.
  apply Forall_app. split; [done|]. constructor; [done|]. by apply Forall_app.
Qed.

Lemma try_callback_result cs txns captured tx :
  (try_callback cs txns captured tx).2
  = match (blockTimeStamp tx (blockHeight tx)).2 with
    | Some e => Returns (Some (outer e))
    | None =>
        match (try_loop cs 0 txns (blockTimeStamp tx (blockHeight tx)).1
                 (mkProcessedBlock (pb_Block captured.1) (blockHeight tx)
                    (pb_Depth captured.1) (pb_ChildTarget captured.1)
                    (pb_CoinOutputDiffs captured.1)
                    (pb_BlockStakeOutputDiffs captured.1)) tx).2 with
        | Some e => Returns (Some (outer e))
        | None => Returns (Some errSuccess)
        end
    end.
Proof.
  unfold try_callback. destruct captured as [diffHolder evs]. simpl.
  destruct (blockTimeStamp tx (blockHeight tx)) as [blockTime [e|]]; simpl; [done|].
  destruct (try_loop cs 0 txns blockTime _ tx) as [[[tx1 dh1] ev1] [e|]]; done.
Qed.

Lemma TryTransactionSet_entered cs txns w tg1 :
  tg_Add (w_tg w) = (tg1, None) ->
  db_opened (w_db w) = true ->
  let tx0 := begin_tx (w_db w) in
  TryTransactionSet cs txns w
  = match blockTimeStamp tx0 (blockHeight tx0) with
    | (_, Some e) =>
        (mkWorld (tg_Done tg1) (w_db w)
           ((w_events w ++ [EvTgAdd; EvRLock; EvUpdate]) ++ [EvRUnlock; EvTgDone]),
         Returns (ConsensusChange_zero, Some (outer e)))
    | (blockTime, None) =>
        let '(_, diffHolder1, ev1, err) :=
          try_loop cs 0 txns blockTime (tip_diffHolder tx0) tx0 in
        (mkWorld (tg_Done tg1) (w_db w)
           (((w_events w ++ [EvTgAdd; EvRLock; EvUpdate]) ++ ev1)
              ++ [EvRUnlock; EvTgDone]),
         Returns
           match err with
           | Some e => (ConsensusChange_zero, Some (outer e))
           | None =>
               (mkConsensusChange (pb_CoinOutputDiffs diffHolder1)
                  (pb_BlockStakeOutputDiffs diffHolder1), None)
           end)
    end.
Proof.
  intros Hadd Hopen tx0. unfold TryTransactionSet, Update, try_callback.
  rewrite Hadd, Hopen. fold (begin_tx (w_db w)). fold tx0. simpl.
  fold (tip_diffHolder tx0).
  destruct (blockTimeStamp tx0 (blockHeight tx0)) as [blockTime [e|]]; [done|].
  destruct (try_loop cs 0 txns blockTime (tip_diffHolder tx0) tx0)
    as [[[tx1 dh1] ev1] [e|]]; done.
Qed.

(** C1.  Whatever the batch, the callback that [TryTransactionSet] hands to
    [Update] returns a non-nil error, and the persisted state of the store
    after the call is its state before the call. *)
Theorem TryTransactionSet_never_commits cs txns w :
  (forall captured tx,
     exists e, (try_callback cs txns captured tx).2 = Returns (Some e))
  /\ w_db (TryTransactionSet cs txns w).1 = w_db w.
Proof.
  split.
  - intros captured tx. rewrite try_callback_result.
    destruct (blockTimeStamp tx (blockHeight tx)).2; [by eexists|].
    destruct (try_loop _ _ _ _ _ _).2; by eexists.
  - unfold TryTransactionSet.
    destruct (tg_Add (w_tg w)) as [tg1 [e|]]; [done|].
    unfold Update. destruct (db_opened (w_db w)); [|done].
    pose proof (try_callback_result cs txns
      (new_processedBlock, w_events w ++ [EvTgAdd; EvRLock; EvUpdate])
      (mkTx true (db_root (w_db w)))) as Hr.
    destruct (try_callback cs txns _ _) as [[tx' [dh evs]] r]. simpl in Hr. subst r.
    destruct (blockTimeStamp _ _).2; [done|].
    destruct (try_loop _ _ _ _ _ _).2; done.
Qed.

(** C2, as amended.  The sentinel is never returned.  When [cs.tg.Add]
    returns nil and the store opens a transaction: if the timestamp of the
    chain tip cannot be read, the result is an empty change and that error;
    if it can and every transaction passes validation and the apply hook of
    every plugin succeeds, the result is the coin-output and
    block-stake-output diffs accumulated over the batch and a nil error; if
    it can and they do not all pass, the result is an empty change and the
    first validator or plugin error, unchanged. *)
Theorem TryTransactionSet_result cs txns w :
  (forall cc, (TryTransactionSet cs txns w).2 <> Returns (cc, Some errSuccess))
  /\ forall tg1,
       tg_Add (w_tg w) = (tg1, None) ->
       db_opened (w_db w) = true ->
       let tx0 := begin_tx (w_db w) in
       let blockTime := (blockTimeStamp tx0 (blockHeight tx0)).1 in
       let diffs := accumulated cs 0 txns (tip_diffHolder tx0) tx0 in
       (forall e,
          (blockTimeStamp tx0 (blockHeight tx0)).2 = Some e ->
          (TryTransactionSet cs txns w).2
          = Returns (ConsensusChange_zero, Some (outer e)))
       /\ ((blockTimeStamp tx0 (blockHeight tx0)).2 = None ->
           batch_passes cs blockTime 0 txns (tip_diffHolder tx0) tx0 ->
           (TryTransactionSet cs txns w).2
           = Returns (mkConsensusChange (pb_CoinOutputDiffs diffs)
                        (pb_BlockStakeOutputDiffs diffs), None))
       /\ ((blockTimeStamp tx0 (blockHeight tx0)).2 = None ->
           ~ batch_passes cs blockTime 0 txns (tip_diffHolder tx0) tx0 ->
           exists r,
             first_rejection cs blockTime 0 txns (tip_diffHolder tx0) tx0 = Some r
             /\ (TryTransactionSet cs txns w).2
                = Returns (ConsensusChange_zero, Some (outer (rej_error r)))).
Proof.
  split.
  - intros cc. unfold TryTransactionSet.
    destruct (tg_Add (w_tg w)) as [tg1 [e|]]; [done|].
    destruct (Update _ _ _ _) as [[d [dh evs]] [[[|e]|]|]]; simpl; congruence.
  - intros tg1 Hadd Hopen tx0 blockTime diffs.
    rewrite (TryTransactionSet_entered cs txns w tg1 Hadd Hopen). fold tx0.
    subst diffs blockTime.
    destruct (blockTimeStamp tx0 (blockHeight tx0)) as [blockTime [e0|]]; simpl.
    { split_and!; [by intros ? [= ->] | done | done]. }
    pose proof (batch_passes_first cs blockTime 0 txns (tip_diffHolder tx0) tx0) as Hpass.
    destruct (try_loop_rejection cs 0 txns blockTime (tip_diffHolder tx0) tx0)
      as [Herr Hacc].
    destruct (try_loop cs 0 txns blockTime (tip_diffHolder tx0) tx0)
      as [[[tx1 dh1] ev1] r]; simpl in *.
    destruct (first_rejection cs blockTime 0 txns (tip_diffHolder tx0) tx0) as [rj|];
      simpl in *; subst r.
    + split_and!; [done | |].
      * intros _ Hp. by apply Hpass in Hp.
      * intros _ _. by exists rj.
    + split_and!; [done | |].
      * intros _ _. by rewrite (Hacc eq_refl).
      * intros _ Hn. destruct Hn. by apply Hpass.
Qed.

(** C4.  Provided [applyTransaction] leaves the height of the diff
    accumulator as it is: every validation call of a run of
    [TryTransactionSet] is made at the height and the timestamp of the chain
    tip of the store, with [IsBlockCreatingTx = false]; and a batch that
    holds a transaction which is only valid as a block creating transaction
    is rejected with an error. *)
Theorem TryTransactionSet_tip_context cs txns w :
  (forall tx pb t, pb_Height (applyTransaction tx pb t).2 = pb_Height pb) ->
  (exists evs,
     w_events (TryTransactionSet cs txns w).1 = w_events w ++ evs
     /\ Forall (in_tip_context (begin_tx (w_db w))) evs)
  /\ forall t,
       t ∈ txns ->
       only_valid_as_block_creating cs t ->
       exists e,
         (TryTransactionSet cs txns w).2
         = Returns (ConsensusChange_zero, Some (outer e)).
Proof.
  intros Hkeep.
  destruct (tg_Add (w_tg w)) as [tg1 [e|]] eqn:Hadd.
  { unfold TryTransactionSet. rewrite Hadd. simpl. split.
    - eexists. split; [reflexivity | by repeat constructor].
    - intros. by eexists. }
  destruct (db_opened (w_db w)) eqn:Hopen.
  2: { unfold TryTransactionSet, Update. rewrite Hadd, Hopen. simpl. split.
       - eexists. split; [by rewrite <- (assoc_L (++)) | by repeat constructor].
       - intros. by eexists. }
  rewrite (TryTransactionSet_entered cs txns w tg1 Hadd Hopen).
  set (tx0 := begin_tx (w_db w)).
  pose proof (try_loop_tip_context tx0 cs 0 txns (tip_diffHolder tx0) tx0 Hkeep eq_refl)
    as Hctx.
  destruct (blockTimeStamp tx0 (blockHeight tx0)) as [blockTime [e0|]]; simpl in *.
  { split.
    - eexists. split; [by rewrite <- (assoc_L (++)) | by repeat constructor].
    - intros. by eexists. }
  pose proof (fun t Hin Ht =>
    try_loop_rejects cs 0 txns blockTime (tip_diffHolder tx0) tx0 t Hin Ht) as Hrej.
  destruct (try_loop cs 0 txns blockTime (tip_diffHolder tx0) tx0)
    as [[[tx1 dh1] ev1] r]; simpl in *.
  split.
  - eexists. split; [by rewrite <- !(assoc_L (++))|].
    repeat (constructor; [done|]). apply Forall_app. split; [done|].
    by repeat constructor.
  - intros t Hin Ht. specialize (Hrej t Hin Ht).
    destruct r as [e|]; [by eexists | done].
Qed.

(** C5.  [BlockAtHeight] resolves the height through [getPath] and hands
    the identifier to [BlockAtID], whose result it returns; when [getPath]
    reports an error, such as the one for a missing entry, it returns the
    zero block and that error. *)
Theorem BlockAtHeight_delegates csg height :
  (forall id,
     getPath (csg_tx csg) height = (id, None) ->
     BlockAtHeight csg height = BlockAtID csg id)
  /\ (forall id e,
        getPath (csg_tx csg) height = (id, Some e) ->
        BlockAtHeight csg height = (ConsensusBlock_zero, Some e)).
Proof.
  unfold BlockAtHeight. split.
  - intros id Hp. by rewrite Hp.
  - intros id e Hp. by rewrite Hp.
Qed.

(** C8.  When [cs.tg.Add] returns an error, [TryTransactionSet] returns the
    zero change and that error, and has done nothing else: the store is as
    it was and the only call made is the one to [Add]. *)
Theorem TryTransactionSet_refused cs txns w tg1 e :
  tg_Add (w_tg w) = (tg1, Some e) ->
  TryTransactionSet cs txns w
  = (mkWorld tg1 (w_db w) (w_events w ++ [EvTgAdd]),
     Returns (ConsensusChange_zero, Some (outer e))).
Proof.
  intros Hadd. unfold TryTransactionSet. by rewrite Hadd.
Qed.

(** C9.  On the empty batch, when [cs.tg.Add] returns nil, the store opens a
    transaction and the timestamp of the chain tip is read,
    [TryTransactionSet] validates nothing, applies nothing and invokes no
    plugin, leaves the store as it was, and returns a change with no
    coin-output diff and no block-stake-output diff, and a nil error. *)
Theorem TryTransactionSet_empty_batch cs w tg1 blockTime :
  tg_Add (w_tg w) = (tg1, None) ->
  db_opened (w_db w) = true ->
  blockTimeStamp (begin_tx (w_db w)) (blockHeight (begin_tx (w_db w)))
    = (blockTime, None) ->
  TryTransactionSet cs [] w
  = (mkWorld (tg_Done tg1) (w_db w)
       (w_events w ++ [EvTgAdd; EvRLock; EvUpdate; EvRUnlock; EvTgDone]),
     Returns (mkConsensusChange [] [], None)).
Proof.
  intros Hadd Hopen Htime.
  rewrite (TryTransactionSet_entered cs [] w tg1 Hadd Hopen), Htime. simpl.
  by rewrite app_nil_r, <- (assoc_L (++)).
Qed.

End ValidTransactionProperties.

(** * Properties of database.go *)
Section DatabaseProperties.
Import Database.
Context `{Database.Env}.

Lemma Put_stored tx name key value tx' b :
  Bucket tx name = Some b ->
  Put tx name key value = (tx', None) ->
  Bucket tx' name = Some (<[key := value]> b).
Proof.
  unfold Put, Bucket. intros Hb.
  destruct (negb (tx_writable tx)); [done|].
  destruct (decide (key = "")); [done|].
  intros [= <-]. simpl. by rewrite lookup_alter_eq, Hb.
Qed.

Lemma initDB_success tx tx' :
  initDB tx = (tx', Returns None) ->
  exists tx1 tx2 b,
    createConsensusDB tx = (tx1, None)
    /\ createChangeLog tx1 = (tx2, None)
    /\ Bucket tx2 Consistency = Some b
    /\ Put tx2 Consistency Consistency (siabin_Marshal_bool false) = (tx', None).
Proof.
  unfold initDB.
  destruct (createConsensusDB tx) as [tx1 [e|]] eqn:H1; [done|].
  destruct (createChangeLog tx1) as [tx2 [e|]] eqn:H2; [done|].
  destruct (Bucket tx2 Consistency) as [b|] eqn:Hb; [|done].
  destruct (Put tx2 Consistency Consistency _) as [tx3 [e|]] eqn:Hput; [done|].
  intros [= <-]. by exists tx1, tx2, b.
Qed.

(** C6.  When [persist.OpenDatabase] reports an error other than the bad
    version, or the legacy conversion does, [openDB] returns that error
    wrapped and has neither printed nor renamed anything.  When both
    report the bad version, [openDB] prints the replacement notice, then
    renames the file to its name followed by [.bck], then opens the
    database anew and keeps what that yields; a failed rename is returned
    wrapped.  Where a rename moves the file and opening a path that has no
    file creates an empty store there, the outcome is the original file
    under the backup name, an empty database in [cs.db], and a nil
    error. *)
Theorem openDB_outdated filename h :
  let events1 := host_events h ++ [EvOpenDatabase dbMetadata filename] in
  let events2 := events1 ++ [EvConvertLegacy filename] in
  let events3 :=
    (events2 ++ [EvPrintln "Outdated consensus database... backing up and replacing"])
      ++ [EvRename filename (backup_name filename)] in
  (forall fs1 d1 e,
     persist_OpenDatabase dbMetadata filename (host_fs h) = (fs1, (d1, Some e)) ->
     e <> ErrBadVersion ->
     openDB filename h
     = (mkHost fs1 (mkConsensusSet d1) events1,
        Some (errors_New ("error opening consensus database: " +:+ Error e))))
  /\ forall fs1 d1,
       persist_OpenDatabase dbMetadata filename (host_fs h)
         = (fs1, (d1, Some ErrBadVersion)) ->
       forall fs2 d2 err2,
         convertLegacyDatabase filename fs1 = (fs2, (d2, err2)) ->
         (err2 = None -> openDB filename h = (mkHost fs2 (mkConsensusSet d2) events2, None))
         /\ (forall e,
               err2 = Some e -> e <> ErrBadVersion ->
               openDB filename h
               = (mkHost fs2 (mkConsensusSet d2) events2,
                  Some (errors_New ("error opening consensus database: " +:+ Error e))))
         /\ (err2 = Some ErrBadVersion ->
             forall fs3 err3,
               os_Rename filename (backup_name filename) fs2 = (fs3, err3) ->
               (forall e,
                  err3 = Some e ->
                  openDB filename h
                  = (mkHost fs3 (mkConsensusSet d2) events3,
                     Some (errors_New
                             ("error while backing up consensus database: " +:+ Error e))))
               /\ (err3 = None ->
                   forall fs4 d4 err4,
                     persist_OpenDatabase dbMetadata filename fs3 = (fs4, (d4, err4)) ->
                     openDB filename h
                     = (mkHost fs4 (mkConsensusSet d4)
                          (events3 ++ [EvOpenDatabase dbMetadata filename]),
                        wrap_open_error err4))
               /\ (err3 = None ->
                   file_at fs3 filename = None ->
                   file_at fs3 (backup_name filename) = file_at fs2 filename ->
                   (forall fs,
                      file_at fs filename = None ->
                      exists fs' d,
                        persist_OpenDatabase dbMetadata filename fs = (fs', (Some d, None))
                        /\ database_root d = ∅
                        /\ file_at fs' (backup_name filename)
                           = file_at fs (backup_name filename)) ->
                   exists d,
                     db (host_cs (openDB filename h).1) = Some d
                     /\ database_root d = ∅
                     /\ file_at (host_fs (openDB filename h).1) (backup_name filename)
                        = file_at fs2 filename
                     /\ (openDB filename h).2 = None)).
Proof.
  intros events1 events2 events3. split.
  - intros fs1 d1 e Hopen Hne. unfold openDB. rewrite Hopen.
    destruct e; [done | reflexivity].
  - intros fs1 d1 Hopen fs2 d2 err2 Hconv.
    unfold openDB. rewrite Hopen, Hconv. simpl. split_and!.
    + by intros ->.
    + intros e -> Hne. destruct e; [done | reflexivity].
    + intros -> fs3 err3 Hren. unfold replaceDatabase. simpl.
      fold (backup_name filename). rewrite Hren. split_and!.
      * by intros e ->.
      * intros -> fs4 d4 err4 Hopen2. rewrite Hopen2. by destruct err4.
      * intros -> Hgone Hkept Hcreate.
        destruct (Hcreate fs3 Hgone) as (fs4 & d4 & Hopen2 & Hempty & Hsame).
        rewrite Hopen2. simpl. exists d4. by rewrite Hsame.
Qed.

(** C7.  [initDB] returns nil only after [createConsensusDB] and
    [createChangeLog] have returned nil on the same transaction and the
    marshalled [false] has been put under the [Consistency] key, where the
    resulting transaction holds it; the error of any of the three steps is
    returned as it is.  Run as the callback of one database transaction, it
    leaves a store that has the flag when the transaction commits, and the
    store as it was when it does not. *)
Theorem initDB_flag_with_buckets tx :
  (forall tx',
     initDB tx = (tx', Returns None) ->
     exists tx1 tx2,
       createConsensusDB tx = (tx1, None)
       /\ createChangeLog tx1 = (tx2, None)
       /\ Put tx2 Consistency Consistency (siabin_Marshal_bool false) = (tx', None)
       /\ stored_flag (tx_root tx') = Some (siabin_Marshal_bool false))
  /\ (forall tx1 e,
        createConsensusDB tx = (tx1, Some e) -> initDB tx = (tx1, Returns (Some e)))
  /\ (forall tx1 tx2 e,
        createConsensusDB tx = (tx1, None) ->
        createChangeLog tx1 = (tx2, Some e) ->
        initDB tx = (tx2, Returns (Some e)))
  /\ (forall tx1 tx2 tx3 e,
        createConsensusDB tx = (tx1, None) ->
        createChangeLog tx1 = (tx2, None) ->
        is_Some (Bucket tx2 Consistency) ->
        Put tx2 Consistency Consistency (siabin_Marshal_bool false) = (tx3, Some e) ->
        initDB tx = (tx3, Returns (Some e)))
  /\ forall d d' r,
       initDB_in_transaction d = (d', r) ->
       (r = Returns None ->
        stored_flag (db_root d') = Some (siabin_Marshal_bool false))
       /\ (r <> Returns None -> d' = d).
Proof.
  split_and!.
  - intros tx' Hinit.
    destruct (initDB_success tx tx' Hinit) as (tx1 & tx2 & b & H1 & H2 & Hb & Hput).
    exists tx1, tx2. split_and!; [done..|].
    pose proof (Put_stored _ _ _ _ _ _ Hb Hput) as Hstored.
    unfold stored_flag. unfold Bucket in Hstored. rewrite Hstored. simpl.
    apply lookup_insert_eq.
  - intros tx1 e H1. unfold initDB. by rewrite H1.
  - intros tx1 tx2 e H1 H2. unfold initDB. by rewrite H1, H2.
  - intros tx1 tx2 tx3 e H1 H2 [b Hb] Hput. unfold initDB.
    by rewrite H1, H2, Hb, Hput.
  - intros d d' r. unfold initDB_in_transaction, Update.
    destruct (db_opened d); [|intros [= <- <-]; by split].
    destruct (initDB (mkTx true (db_root d))) as [tx' r'] eqn:Hinit.
    destruct r' as [[e|]|]; intros [= <- <-]; try by split.
    split; [|done]. intros _. simpl.
    destruct (initDB_success _ _ Hinit) as (tx1 & tx2 & b & H1 & H2 & Hb & Hput).
    pose proof (Put_stored _ _ _ _ _ _ Hb Hput) as Hstored.
    unfold stored_flag. unfold Bucket in Hstored. rewrite Hstored. simpl.
    apply lookup_insert_eq.
Qed.


End DatabaseProperties.

(** * The statements on the small chain *)
Section ChainRuns.
Import ValidTransaction Scenario.

Lemma validTransaction_first_error_witness :
  exists pre c post,
    validation_stages sample_cs (begin_tx (w_db sample_world)) spend_P
        (supplied_context (try_constants sample_cs) 1%N 3%N false)
      = pre ++ c :: post
    /\ Forall (fun s => s.2 = None) pre
    /\ (c.2 = None -> post = [])
    /\ validTransaction sample_cs (begin_tx (w_db sample_world)) spend_P
         (try_constants sample_cs) 1%N 3%N false
       = (pre.*1 ++ [c.1], c.2).
Proof.
  apply (validTransaction_first_error sample_cs (begin_tx (w_db sample_world)) spend_P
           (try_constants sample_cs) 1%N 3%N false).
Defined.

Lemma TryTransactionSet_result_witness :
  tg_Add (w_tg sample_world) = (false, None)
  /\ db_opened (w_db sample_world) = true
  /\ (TryTransactionSet sample_cs [spend_O; spend_P] sample_world).2
     = Returns (mkConsensusChange
                  [(false, "O"); (true, "P"); (false, "P"); (true, "Q")] [], None)
  /\ exists r,
       first_rejection sample_cs 3%N 0 [spend_O; spend_O]
         (tip_diffHolder (begin_tx (w_db sample_world))) (begin_tx (w_db sample_world))
         = Some r
       /\ (TryTransactionSet sample_cs [spend_O; spend_O] sample_world).2
          = Returns (ConsensusChange_zero, Some (outer (rej_error r))).
Proof.
  split; [reflexivity|]. split; [reflexivity|]. split.
  - destruct (TryTransactionSet_result sample_cs [spend_O; spend_P] sample_world)
      as [_ Hrun].
    destruct (Hrun false eq_refl eq_refl) as (_ & Hok & _).
    rewrite Hok; [reflexivity | reflexivity | vm_compute; tauto].
  - destruct (TryTransactionSet_result sample_cs [spend_O; spend_O] sample_world)
      as [_ Hrun].
    destruct (Hrun false eq_refl eq_refl) as (_ & _ & Hfail).
    apply Hfail; [reflexivity | vm_compute; intros (_ & _ & [=] & _)].
Defined.

(** C2, the claim as stated, fails.  On a store whose tip has no path
    entry, the transaction of the batch passes every validator and the
    apply hook of the one plugin succeeds, whatever the timestamp, yet the
    call returns no change and the error of the timestamp lookup. *)
Lemma TryTransactionSet_result_counterexample :
  (forall blockTime,
     batch_passes sample_cs blockTime 0 [spend_O]
       (tip_diffHolder (begin_tx (w_db torn_world))) (begin_tx (w_db torn_world)))
  /\ (TryTransactionSet sample_cs [spend_O] torn_world).2
     = Returns (ConsensusChange_zero, Some (outer Database.errNilItem))
  /\ ~ ((forall blockTime,
           batch_passes sample_cs blockTime 0 [spend_O]
             (tip_diffHolder (begin_tx (w_db torn_world))) (begin_tx (w_db torn_world))) ->
        exists cc,
          (TryTransactionSet sample_cs [spend_O] torn_world).2 = Returns (cc, None)).
Proof.
  assert (Hpass : forall blockTime,
            batch_passes sample_cs blockTime 0 [spend_O]
              (tip_diffHolder (begin_tx (w_db torn_world))) (begin_tx (w_db torn_world))).
  { intros blockTime. vm_compute. tauto. }
  split; [exact Hpass|]. split; [vm_compute; reflexivity|].
  intros Hclaim. destruct (Hclaim Hpass) as [cc Hcc].
  vm_compute in Hcc. discriminate Hcc.
Qed.

Lemma TryTransactionSet_tip_context_witness :
  (forall tx pb t, pb_Height (applyTransaction tx pb t).2 = pb_Height pb)
  /\ (exists evs,
        w_events (TryTransactionSet sample_cs [spend_O; creator] sample_world).1
          = w_events sample_world ++ evs
        /\ Forall (in_tip_context (begin_tx (w_db sample_world))) evs)
  /\ exists e,
       (TryTransactionSet sample_cs [spend_O; creator] sample_world).2
       = Returns (ConsensusChange_zero, Some (outer e)).
Proof.
  assert (Hkeep : forall tx pb t, pb_Height (applyTransaction tx pb t).2 = pb_Height pb)
    by (intros; reflexivity).
  split; [exact Hkeep|].
  destruct (TryTransactionSet_tip_context sample_cs [spend_O; creator] sample_world Hkeep)
    as [Hctx Hrej].
  split; [exact Hctx|].
  apply (Hrej creator).
  - apply list_elem_of_further, list_elem_of_here.
  - intros tx constants height timestamp. vm_compute. discriminate.
Defined.

Lemma BlockAtHeight_delegates_witness :
  getPath (begin_tx (w_db sample_world)) 1%N = ("b", None)
  /\ BlockAtHeight (newConsensusStateGetter (begin_tx (w_db sample_world))) 1%N
     = BlockAtID (newConsensusStateGetter (begin_tx (w_db sample_world))) "b"
  /\ getPath (begin_tx (w_db sample_world)) 7%N = ("", Some Database.errNilItem)
  /\ BlockAtHeight (newConsensusStateGetter (begin_tx (w_db sample_world))) 7%N
     = (ConsensusBlock_zero, Some Database.errNilItem).
Proof.
  destruct (BlockAtHeight_delegates
              (newConsensusStateGetter (begin_tx (w_db sample_world))) 1%N) as [Hok _].
  destruct (BlockAtHeight_delegates
              (newConsensusStateGetter (begin_tx (w_db sample_world))) 7%N) as [_ Hfail].
  split; [reflexivity|]. split; [apply Hok; reflexivity|].
  split; [reflexivity|]. apply (Hfail ""). reflexivity.
Defined.

Lemma TryTransactionSet_refused_witness :
  tg_Add (w_tg stopping_world) = (true, Some (errorString "ThreadGroup already stopped"))
  /\ TryTransactionSet sample_cs [spend_O] stopping_world
     = (mkWorld true (w_db stopping_world) [EvTgAdd],
        Returns (ConsensusChange_zero,
                 Some (outer (errorString "ThreadGroup already stopped")))).
Proof.
  split; [reflexivity|].
  apply (TryTransactionSet_refused sample_cs [spend_O] stopping_world true
           (errorString "ThreadGroup already stopped")).
  reflexivity.
Defined.

Lemma TryTransactionSet_empty_batch_witness :
  tg_Add (w_tg sample_world) = (false, None)
  /\ db_opened (w_db sample_world) = true
  /\ blockTimeStamp (begin_tx (w_db sample_world))
       (blockHeight (begin_tx (w_db sample_world))) = (3%N, None)
  /\ TryTransactionSet sample_cs [] sample_world
     = (mkWorld false (w_db sample_world)
          [EvTgAdd; EvRLock; EvUpdate; EvRUnlock; EvTgDone],
        Returns (mkConsensusChange [] [], None)).
Proof.
  split; [reflexivity|]. split; [reflexivity|]. split; [reflexivity|].
  exact (TryTransactionSet_empty_batch sample_cs sample_world false 3%N
           eq_refl eq_refl eq_refl).
Defined.

End ChainRuns.

(** * The statements on the small disk *)
Section DiskRuns.
Import Database Disk.

Lemma sample_OpenDatabase_creates fs :
  file_at fs "consensus.db" = None ->
  exists fs' d,
    persist_OpenDatabase dbMetadata "consensus.db" fs = (fs', (Some d, None))
    /\ database_root d = ∅
    /\ file_at fs' (backup_name "consensus.db") = file_at fs (backup_name "consensus.db").
Proof.
  simpl. unfold sample_OpenDatabase. intros ->.
  eexists _, _. split; [reflexivity|]. split; [reflexivity|].
  by apply lookup_insert_ne.
Defined.

Lemma openDB_outdated_witness :
  persist_OpenDatabase dbMetadata "consensus.db" (host_fs (host_with old_image))
    = (host_fs (host_with old_image), (None, Some ErrBadVersion))
  /\ convertLegacyDatabase "consensus.db" (host_fs (host_with old_image))
     = (host_fs (host_with old_image), (None, Some ErrBadVersion))
  /\ exists d,
       db (host_cs (openDB "consensus.db" (host_with old_image)).1) = Some d
       /\ database_root d = ∅
       /\ file_at (host_fs (openDB "consensus.db" (host_with old_image)).1)
            (backup_name "consensus.db")
          = file_at (host_fs (host_with old_image)) "consensus.db"
       /\ (openDB "consensus.db" (host_with old_image)).2 = None.
Proof.
  split; [reflexivity|]. split; [reflexivity|].
  destruct (openDB_outdated "consensus.db" (host_with old_image)) as [_ Hbad].
  destruct (Hbad _ _ eq_refl _ _ _ eq_refl) as (_ & _ & Hreplace).
  destruct (Hreplace eq_refl
              ({[ "consensus.db.bck" := old_image ]} : gmap string _) None)
    as (_ & _ & Hfresh); [vm_compute; reflexivity|].
  apply Hfresh;
    [reflexivity | reflexivity | reflexivity | exact sample_OpenDatabase_creates].
Defined.

Lemma initDB_flag_with_buckets_witness :
  (exists tx', initDB fresh_tx = (tx', Returns None)
               /\ stored_flag (tx_root tx') = Some [x00])
  /\ stored_flag (db_root (initDB_in_transaction (mkDB true ∅)).1) = Some [x00]
  /\ initDB (mkTx false ∅) = (mkTx false ∅, Returns (Some ErrTxNotWritable)).
Proof.
  destruct (initDB_flag_with_buckets fresh_tx) as (Hok & _).
  destruct (initDB_flag_with_buckets (mkTx false ∅)) as (_ & Hfail & _ & _ & Hrun).
  split_and!.
  - eexists. split; [reflexivity|].
    destruct (Hok _ eq_refl) as (tx1 & tx2 & _ & _ & _ & Hflag). exact Hflag.
  - destruct (Hrun (mkDB true ∅) (initDB_in_transaction (mkDB true ∅)).1
                (initDB_in_transaction (mkDB true ∅)).2) as [Hcommitted _];
      [apply surjective_pairing|].
    apply Hcommitted. vm_compute. reflexivity.
  - apply Hfail. reflexivity.
Defined.


End DiskRuns.

(** * Further properties of database.go *)
Section DatabaseCoverage.
Import Database.
Context `{Database.Env}.

Lemma Put_frame tx name key value :
  let tx' := (Put tx name key value).1 in
  tx_writable tx' = tx_writable tx
  /\ (forall other, other <> name -> Bucket tx' other = Bucket tx other)
  /\ (forall other, is_Some (Bucket tx' other) <-> is_Some (Bucket tx other))
  /\ (forall b b' k,
        Bucket tx name = Some b -> Bucket tx' name = Some b' -> k <> key ->
        b' !! k = b !! k).
Proof.
  unfold Put, Bucket.
  destruct (negb (tx_writable tx)); simpl.
  { split_and!; try done. intros b b' k Hb Hb' _. by simplify_eq. }
  destruct (decide (key = "")); simpl.
  { split_and!; try done. intros b b' k Hb Hb' _. by simplify_eq. }
  split_and!; [done | | |].
  - intros other Hne. apply lookup_alter_ne. congruence.
  - intros other. rewrite lookup_alter. case_decide; [|done].
    subst. by rewrite fmap_is_Some.
  - intros b b' k Hb. rewrite lookup_alter_eq, Hb. simpl. intros [= <-] Hne.
    apply lookup_insert_ne. congruence.
Qed.

Lemma inconsistencyDetected_stored tx b v :
  Bucket tx Consistency = Some b ->
  b !! Consistency = Some (siabin_Marshal_bool v) ->
  siabin_Unmarshal_bool (siabin_Marshal_bool v) = inr v ->
  inconsistencyDetected tx = ([], Returns v).
Proof.
  intros Hb Hk Hround. unfold inconsistencyDetected, Get.
  by rewrite Hb, Hk; simpl; rewrite Hround.
Qed.

(** X1.  On a writable transaction that has the consistency bucket,
    [markInconsistency] reports nothing to [build.Severe], and
    [inconsistencyDetected] on the resulting transaction returns true,
    provided [true] decodes from its own encoding. *)
Theorem markInconsistency_then_detected tx b :
  Bucket tx Consistency = Some b ->
  tx_writable tx = true ->
  Consistency <> "" ->
  siabin_Unmarshal_bool (siabin_Marshal_bool true) = inr true ->
  exists tx',
    markInconsistency tx = (tx', [], Returns tt)
    /\ inconsistencyDetected tx' = ([], Returns true).
Proof.
  intros Hb Hw Hkey Hround. unfold markInconsistency. rewrite Hb.
  destruct (Put tx Consistency Consistency (siabin_Marshal_bool true))
    as [tx1 err] eqn:Hput.
  assert (err = None) as ->.
  { unfold Put in Hput. rewrite Hw in Hput. simpl in Hput.
    destruct (decide (Consistency = "")); [done|]. by simplify_eq. }
  exists tx1. split; [done|].
  apply (inconsistencyDetected_stored tx1 (<[Consistency := siabin_Marshal_bool true]> b));
    [by eapply Put_stored | apply lookup_insert_eq | done].
Qed.

(** X2.  After an [initDB] that returned nil, [inconsistencyDetected]
    returns false and reports nothing to [build.Severe], provided [false]
    decodes from its own encoding. *)
Theorem initDB_then_not_detected tx tx' :
  initDB tx = (tx', Returns None) ->
  siabin_Unmarshal_bool (siabin_Marshal_bool false) = inr false ->
  inconsistencyDetected tx' = ([], Returns false).
Proof.
  intros Hinit Hround.
  destruct (initDB_success tx tx' Hinit) as (tx1 & tx2 & b & _ & _ & Hb & Hput).
  apply (inconsistencyDetected_stored tx' (<[Consistency := siabin_Marshal_bool false]> b));
    [by eapply Put_stored | apply lookup_insert_eq | done].
Qed.

(** X3.  [markInconsistency] changes nothing but the value under the
    [Consistency] key of the [Consistency] bucket: the transaction stays
    writable or read-only as it was, every other bucket and every other key
    of that bucket is as before, no bucket appears or disappears, and
    [dbInitialized] answers as before. *)
Theorem markInconsistency_frame tx :
  let tx' := (markInconsistency tx).1.1 in
  tx_writable tx' = tx_writable tx
  /\ (forall name, name <> Consistency -> Bucket tx' name = Bucket tx name)
  /\ (forall b b' key,
        Bucket tx Consistency = Some b -> Bucket tx' Consistency = Some b' ->
        key <> Consistency -> b' !! key = b !! key)
  /\ (forall name, is_Some (Bucket tx' name) <-> is_Some (Bucket tx name))
  /\ dbInitialized tx' = dbInitialized tx.
Proof.
  unfold markInconsistency.
  destruct (Bucket tx Consistency) as [b0|] eqn:Hb0.
  2: { simpl. by split_and!. }
  pose proof (Put_frame tx Consistency Consistency (siabin_Marshal_bool true)) as Hframe.
  destruct (Put tx Consistency Consistency (siabin_Marshal_bool true)) as [tx1 err].
  simpl in Hframe. destruct Hframe as (Hw & Hother & Hsome & Hkeys).
  assert (Hgoal : tx_writable tx1 = tx_writable tx
    /\ (forall name, name <> Consistency -> Bucket tx1 name = Bucket tx name)
    /\ (forall b b' key,
          Bucket tx Consistency = Some b -> Bucket tx1 Consistency = Some b' ->
          key <> Consistency -> b' !! key = b !! key)
    /\ (forall name, is_Some (Bucket tx1 name) <-> is_Some (Bucket tx name))
    /\ dbInitialized tx1 = dbInitialized tx).
  { split_and!; [done | done | | done |].
    - intros b b' key Hb Hb' Hne. exact (Hkeys b b' key Hb Hb' Hne).
    - unfold dbInitialized. apply bool_decide_ext, Hsome. }
  destruct err as [e|]; [destruct (build_Severe e)|]; simpl; rewrite <- Hb0; exact Hgoal.
Qed.

(** X4.  An error that [openDB] returns is never the one it received: it
    is a new error whose text is one of the two prefixes of the file
    followed by the text of the cause.  In particular [openDB] never
    returns [persist.ErrBadVersion]. *)
Theorem openDB_error_is_wrapped filename h e :
  (openDB filename h).2 = Some e ->
  e <> ErrBadVersion
  /\ exists cause,
       e = errors_New ("error opening consensus database: " +:+ Error cause)
       \/ e = errors_New ("error while backing up consensus database: " +:+ Error cause).
Proof.
  unfold openDB, replaceDatabase, wrap_open_error.
  destruct (persist_OpenDatabase dbMetadata filename (host_fs h)) as [fs1 [d1 [e1|]]];
    simpl; [|done].
  destruct e1 as [|s1].
  2: { intros [= <-]. split; [done|]. eexists (errorString s1). by left. }
  destruct (convertLegacyDatabase filename fs1) as [fs2 [d2 [e2|]]]; simpl; [|done].
  destruct e2 as [|s2].
  2: { intros [= <-]. split; [done|]. eexists (errorString s2). by left. }
  destruct (os_Rename filename (filename +:+ ".bck") fs2) as [fs3 [e3|]]; simpl.
  { intros [= <-]. split; [done|]. exists e3. by right. }
  destruct (persist_OpenDatabase dbMetadata filename fs3) as [fs4 [d4 [e4|]]];
    simpl; [|done].
  intros [= <-]. split; [done|]. exists e4. by left.
Qed.

(** X5.  What [openDB] does to the outside has one of four shapes, and
    which one is decided by the two version checks: unless both
    [persist.OpenDatabase] and the conversion report the bad version, it
    opens, or opens and converts, and nothing else; when both do, it opens,
    converts, prints the notice, renames the file to its backup name, and
    after that at most opens once more. *)
Theorem openDB_events filename h :
  let opened := persist_OpenDatabase dbMetadata filename (host_fs h) in
  let converted := convertLegacyDatabase filename opened.1 in
  let both_outdated :=
    opened.2.2 = Some ErrBadVersion /\ converted.2.2 = Some ErrBadVersion in
  exists evs,
    host_events (openDB filename h).1 = host_events h ++ evs
    /\ (both_outdated ->
        exists rest,
          evs = [EvOpenDatabase dbMetadata filename; EvConvertLegacy filename;
                 EvPrintln "Outdated consensus database... backing up and replacing";
                 EvRename filename (backup_name filename)] ++ rest
          /\ (rest = [] \/ rest = [EvOpenDatabase dbMetadata filename]))
    /\ (~ both_outdated ->
        evs = [EvOpenDatabase dbMetadata filename]
        \/ evs = [EvOpenDatabase dbMetadata filename; EvConvertLegacy filename]).
Proof.
  intros opened converted both_outdated. subst both_outdated converted opened.
  unfold openDB, replaceDatabase, backup_name, wrap_open_error.
  destruct (persist_OpenDatabase dbMetadata filename (host_fs h)) as [fs1 [d1 err1]];
    simpl.
  destruct err1 as [[|s1]|]; simpl.
  2,3: (eexists; split; [reflexivity|]; split; [by intros [? _] | by intros; left]).
  destruct (convertLegacyDatabase filename fs1) as [fs2 [d2 err2]]; simpl.
  destruct err2 as [[|s2]|]; simpl.
  2,3: (eexists; split; [by rewrite <- !(assoc_L (++))|];
        split; [by intros [_ ?] | by intros; right]).
  destruct (os_Rename filename (filename +:+ ".bck") fs2) as [fs3 [e3|]]; simpl.
  - eexists. split; [by rewrite <- !(assoc_L (++))|].
    split; [|intros Hn; destruct Hn; by split].
    intros _. exists []. split; [reflexivity | by left].
  - destruct (persist_OpenDatabase dbMetadata filename fs3) as [fs4 [d4 err4]].
    destruct err4; simpl;
      (eexists; split; [by rewrite <- !(assoc_L (++))|];
       split; [|intros Hn; destruct Hn; by split];
       intros _; eexists; split; [reflexivity | by right]).
Qed.

End DatabaseCoverage.

(** * Further properties of validtransaction.go *)
Section ValidTransactionCoverage.
Import ValidTransaction TryTrace.
Context `{Env}.

(** X6.  The state reader returns the zero block together with every
    error; without an error, the block by height consists of the four
    fields of the record that [getBlockMap] holds for the identifier that
    [getPath] resolves.  An error of [getBlockMap] comes back from
    [BlockAtHeight] as it is. *)
Theorem state_reader_zero_on_error csg height :
  (forall id, (BlockAtID csg id).2 <> None -> (BlockAtID csg id).1 = ConsensusBlock_zero)
  /\ ((BlockAtHeight csg height).2 <> None ->
      (BlockAtHeight csg height).1 = ConsensusBlock_zero)
  /\ (forall id pb err,
        getPath (csg_tx csg) height = (id, None) ->
        getBlockMap (csg_tx csg) id = (pb, err) ->
        BlockAtHeight csg height
        = match err with
          | None =>
              (mkConsensusBlock (pb_Block pb) (pb_Height pb) (pb_Depth pb)
                 (pb_ChildTarget pb), None)
          | Some e => (ConsensusBlock_zero, Some e)
          end).
Proof.
  assert (Hid : forall id,
            (BlockAtID csg id).2 <> None -> (BlockAtID csg id).1 = ConsensusBlock_zero).
  { intros id. unfold BlockAtID.
    by destruct (getBlockMap (csg_tx csg) id) as [pb [e|]]. }
  split_and!; [exact Hid | |].
  - unfold BlockAtHeight.
    destruct (getPath (csg_tx csg) height) as [id [e|]]; [done | apply Hid].
  - intros id pb err Hp Hb. unfold BlockAtHeight, BlockAtID. rewrite Hp, Hb.
    by destruct err.
Qed.

(** X7.  [validTransaction] returns nil exactly when every stage of the
    pipeline (the validators registered for the transaction's version, the
    global validators, the plugin validators) returns nil on the
    transaction. *)
Theorem validTransaction_nil_iff cs tx t constants height timestamp flag :
  (validTransaction cs tx t constants height timestamp flag).2 = None
  <-> Forall (fun s => s.2 = None)
        (validation_stages cs tx t (supplied_context constants height timestamp flag)).
Proof.
  unfold validTransaction, validation_stages, supplied_context.
  set (ctx := mkTransactionValidationContext _ _ _ _).
  set (csg := newConsensusStateGetter tx).
  assert (Hver : match txVersionMappedValidators cs !! Version t with
                 | Some vs => run_validators VersionSpecific 0 vs t ctx csg
                 | None => ([], None)
                 end
                 = run_validators VersionSpecific 0
                     (default [] (txVersionMappedValidators cs !! Version t)) t ctx csg)
    by (destruct (txVersionMappedValidators cs !! Version t); reflexivity).
  rewrite Hver. clear Hver.
  generalize (default [] (txVersionMappedValidators cs !! Version t)). intros vs.
  rewrite !Forall_app, Forall_singleton. simpl.
  destruct (run_validators_stages VersionSpecific 0 vs t ctx csg)
    as [[Hall1 Hrun1]|(pre & c & post & e & Hst & Hpre & Hc & Hrun)];
    simpl in *.
  2: { rewrite Hrun, Hst. simpl. split; [done|]. intros [Hall _].
       apply Forall_app in Hall as [_ Hall]. apply Forall_cons in Hall as [Hnil _].
       congruence. }
  rewrite Hrun1.
  destruct (run_validators_stages Global 0 (txValidators cs) t ctx csg)
    as [[Hall2 Hrun2]|(pre & c & post & e & Hst & Hpre & Hc & Hrun)];
    simpl in *.
  2: { rewrite Hrun, Hst. simpl. split; [done|]. intros (_ & Hall & _).
       apply Forall_app in Hall as [_ Hall]. apply Forall_cons in Hall as [Hnil _].
       congruence. }
  rewrite Hrun2. simpl. tauto.
Qed.

Lemma try_loop_events (P : Event -> Prop) cs k txns blockTime diffHolder tx :
  (forall scope j t ctx, P (EvValidator scope j t ctx)) ->
  (forall t ctx, P (EvPluginValidators t ctx)) ->
  (forall id e, P (EvPrintf id e)) ->
  (forall t, P (EvApplyTransaction t)) ->
  (forall name t b h, P (EvPluginApply name t b h)) ->
  Forall P (try_loop cs k txns blockTime diffHolder tx).1.2.
Proof.
  intros Hv Hp Hl Ha Hh. revert k diffHolder tx.
  induction txns as [|txn rest IH]; intros k diffHolder tx; simpl; [constructor|].
  assert (Hev : Forall P
            (validTransaction cs tx txn
               {| BlockSizeLimit := cts_BlockSizeLimit (chainCts cs);
                  ArbitraryDataSizeLimit := cts_ArbitraryDataSizeLimit (chainCts cs);
                  MinimumMinerFee := MinimumTransactionFee (chainCts cs) |}
               (pb_Height diffHolder) blockTime false).1).
  { apply validTransaction_events; [intros ? ?; apply Hv | apply Hp]. }
  destruct (validTransaction cs tx txn _ _ _ false) as [ev1 [e|]]; simpl in *.
  { apply Forall_app. split; [done|]. repeat constructor. apply Hl. }
  destruct (applyTransaction tx diffHolder txn) as [tx1 diffHolder1].
  pose proof (apply_plugins_events P cs (range_plugins k (plugins cs)) txn diffHolder1 tx1
                (fun name => Hh name _ _ _)) as Hpl.
  destruct (apply_plugins cs _ txn diffHolder1 tx1) as [[tx2 ev2] [e|]]; simpl in *.
  { apply Forall_app. split; [done|]. constructor; [apply Ha | done]. }
  specialize (IH (S k) diffHolder1 tx2).
  destruct (try_loop cs (S k) rest _ diffHolder1 tx2) as [[[tx3 dh3] ev3] r3]; simpl in *.
  apply Forall_app. split; [done|]. constructor; [apply Ha|]. by apply Forall_app.
Qed.

Lemma omap_Forall_None {A B} (f : A -> option B) (l : list A) :
  Forall (fun x => f x = None) l -> omap f l = [].
Proof.
  induction 1 as [|x l Hx _ IH]; [done|]. simpl. by rewrite Hx.
Qed.

Lemma applied_transactions_app (l1 l2 : list Event) :
  applied_transactions (l1 ++ l2) = applied_transactions l1 ++ applied_transactions l2.
Proof. apply omap_app. Qed.

Lemma applied_transactions_cons t (l : list Event) :
  applied_transactions (EvApplyTransaction t :: l) = t :: applied_transactions l.
Proof. reflexivity. Qed.

Lemma logged_warnings_app (l1 l2 : list Event) :
  logged_warnings (l1 ++ l2) = logged_warnings l1 ++ logged_warnings l2.
Proof. apply omap_app. Qed.

Lemma logged_warnings_cons t (l : list Event) :
  logged_warnings (EvApplyTransaction t :: l) = logged_warnings l.
Proof. reflexivity. Qed.

Lemma validTransaction_applies_nothing cs tx t constants height timestamp flag :
  applied_transactions (validTransaction cs tx t constants height timestamp flag).1 = []
  /\ logged_warnings (validTransaction cs tx t constants height timestamp flag).1 = [].
Proof.
  split; apply omap_Forall_None;
    by apply (validTransaction_events _ cs tx t constants height timestamp flag).
Qed.

Lemma apply_plugins_applies_nothing cs entries txn diffHolder tx :
  applied_transactions (apply_plugins cs entries txn diffHolder tx).1.2 = []
  /\ logged_warnings (apply_plugins cs entries txn diffHolder tx).1.2 = [].
Proof.
  split; apply omap_Forall_None; by apply apply_plugins_events.
Qed.

Lemma try_loop_applied cs k txns blockTime diffHolder tx :
  let run := try_loop cs k txns blockTime diffHolder tx in
  exists post,
    txns = applied_transactions run.1.2 ++ post
    /\ (run.2 = None -> post = []).
Proof.
  revert k diffHolder tx.
  induction txns as [|txn rest IH]; intros k diffHolder tx; simpl.
  { by exists []. }
  pose proof (validTransaction_applies_nothing cs tx txn
    {| BlockSizeLimit := cts_BlockSizeLimit (chainCts cs);
       ArbitraryDataSizeLimit := cts_ArbitraryDataSizeLimit (chainCts cs);
       MinimumMinerFee := MinimumTransactionFee (chainCts cs) |}
    (pb_Height diffHolder) blockTime false) as [Hv _].
  destruct (validTransaction cs tx txn _ _ _ false) as [ev1 [e|]]; simpl in *.
  { exists (txn :: rest). rewrite applied_transactions_app, Hv. by split. }
  destruct (applyTransaction tx diffHolder txn) as [tx1 diffHolder1].
  pose proof (apply_plugins_applies_nothing cs (range_plugins k (plugins cs))
                txn diffHolder1 tx1) as [Hp _].
  destruct (apply_plugins cs _ txn diffHolder1 tx1) as [[tx2 ev2] [e|]]; simpl in *.
  { exists rest. rewrite applied_transactions_app, Hv, applied_transactions_cons, Hp.
    by split. }
  destruct (IH (S k) diffHolder1 tx2) as (post & Hpost & Hnil).
  destruct (try_loop cs (S k) rest _ diffHolder1 tx2) as [[[tx3 dh3] ev3] r3]; simpl in *.
  exists post.
  rewrite applied_transactions_app, Hv, applied_transactions_cons,
    applied_transactions_app, Hp.
  simpl. split; [by f_equal | done].
Qed.

Lemma try_loop_applied_until cs k txns blockTime diffHolder tx :
  match first_rejection cs blockTime k txns diffHolder tx with
  | None =>
      applied_transactions (try_loop cs k txns blockTime diffHolder tx).1.2 = txns
  | Some r =>
      txns !! rej_position r = Some (rej_transaction r)
      /\ applied_transactions (try_loop cs k txns blockTime diffHolder tx).1.2
         = take (rej_position r + (if rej_by_plugin r then 1 else 0)) txns
  end.
Proof.
  revert k diffHolder tx.
  induction txns as [|txn rest IH]; intros k diffHolder tx; simpl; [done|].
  pose proof (validTransaction_first cs tx txn (try_constants cs)
                (pb_Height diffHolder) blockTime false) as Hv.
  pose proof (validTransaction_applies_nothing cs tx txn (try_constants cs)
                (pb_Height diffHolder) blockTime false) as [Hnone _].
  unfold try_constants in *.
  destruct (validTransaction cs tx txn _ _ _ false) as [ev1 verdict]. simpl in Hv, Hnone.
  rewrite <- Hv. destruct verdict as [e|]; simpl.
  { split; [done|]. by rewrite applied_transactions_app, Hnone. }
  destruct (applyTransaction tx diffHolder txn) as [tx1 diffHolder1]. simpl.
  destruct (apply_plugins_hooks cs (range_plugins k (plugins cs)) txn diffHolder1 tx1)
    as [Herr Hstate].
  pose proof (apply_plugins_applies_nothing cs (range_plugins k (plugins cs))
                txn diffHolder1 tx1) as [Hp _].
  destruct (apply_plugins cs _ txn diffHolder1 tx1) as [[tx2 ev2] r]. simpl in *.
  rewrite <- Herr in *. destruct r as [e|]; simpl.
  { split; [done|].
    by rewrite applied_transactions_app, Hnone, applied_transactions_cons, Hp. }
  rewrite <- (Hstate eq_refl).
  specialize (IH (S k) diffHolder1 tx2).
  destruct (try_loop cs (S k) rest _ diffHolder1 tx2) as [[[tx3 dh3] ev3] r3]. simpl in *.
  rewrite applied_transactions_app, Hnone, applied_transactions_cons,
    applied_transactions_app, Hp. simpl.
  destruct (first_rejection cs blockTime (S k) rest diffHolder1 tx2) as [rj|]; simpl.
  - destruct IH as [Hlook Happ]. split; [done | by rewrite Happ].
  - by rewrite IH.
Qed.

Lemma try_loop_logged_until cs k txns blockTime diffHolder tx :
  logged_warnings (try_loop cs k txns blockTime diffHolder tx).1.2
  = match first_rejection cs blockTime k txns diffHolder tx with
    | Some r =>
        if rej_by_plugin r then [] else [(ID (rej_transaction r), rej_error r)]
    | None => []
    end.
Proof.
  revert k diffHolder tx.
  induction txns as [|txn rest IH]; intros k diffHolder tx; simpl; [done|].
  pose proof (validTransaction_first cs tx txn (try_constants cs)
                (pb_Height diffHolder) blockTime false) as Hv.
  pose proof (validTransaction_applies_nothing cs tx txn (try_constants cs)
                (pb_Height diffHolder) blockTime false) as [_ Hnone].
  unfold try_constants in *.
  destruct (validTransaction cs tx txn _ _ _ false) as [ev1 verdict]. simpl in Hv, Hnone.
  rewrite <- Hv. destruct verdict as [e|]; simpl.
  { by rewrite logged_warnings_app, Hnone. }
  destruct (applyTransaction tx diffHolder txn) as [tx1 diffHolder1]. simpl.
  destruct (apply_plugins_hooks cs (range_plugins k (plugins cs)) txn diffHolder1 tx1)
    as [Herr Hstate].
  pose proof (apply_plugins_applies_nothing cs (range_plugins k (plugins cs))
                txn diffHolder1 tx1) as [_ Hp].
  destruct (apply_plugins cs _ txn diffHolder1 tx1) as [[tx2 ev2] r]. simpl in *.
  rewrite <- Herr in *. destruct r as [e|]; simpl.
  { by rewrite logged_warnings_app, Hnone, logged_warnings_cons, Hp. }
  rewrite <- (Hstate eq_refl).
  specialize (IH (S k) diffHolder1 tx2).
  destruct (try_loop cs (S k) rest _ diffHolder1 tx2) as [[[tx3 dh3] ev3] r3]. simpl in *.
  rewrite logged_warnings_app, Hnone, logged_warnings_cons, logged_warnings_app, Hp.
  simpl. rewrite IH.
  by destruct (first_rejection cs blockTime (S k) rest diffHolder1 tx2).
Qed.

(** X8.  In a run of [TryTransactionSet] that reaches the batch, the
    transactions handed to [applyTransaction] are exactly those before the
    first rejected one, together with the rejected one when it was a plugin
    hook that rejected it: a transaction that fails validation is never
    applied, and nothing after a rejected transaction is.  Without a
    rejection they are the whole batch. *)
Theorem TryTransactionSet_applies_until_rejection cs txns w tg1 blockTime :
  tg_Add (w_tg w) = (tg1, None) ->
  db_opened (w_db w) = true ->
  blockTimeStamp (begin_tx (w_db w)) (blockHeight (begin_tx (w_db w)))
    = (blockTime, None) ->
  exists evs,
    w_events (TryTransactionSet cs txns w).1 = w_events w ++ evs
    /\ match first_rejection cs blockTime 0 txns
               (tip_diffHolder (begin_tx (w_db w))) (begin_tx (w_db w)) with
       | None => applied_transactions evs = txns
       | Some r =>
           txns !! rej_position r = Some (rej_transaction r)
           /\ applied_transactions evs
              = take (rej_position r + (if rej_by_plugin r then 1 else 0)) txns
       end.
Proof.
  intros Hadd Hopen Htime.
  rewrite (TryTransactionSet_entered cs txns w tg1 Hadd Hopen), Htime.
  set (tx0 := begin_tx (w_db w)).
  pose proof (try_loop_applied_until cs 0 txns blockTime (tip_diffHolder tx0) tx0) as Hspec.
  destruct (try_loop cs 0 txns blockTime (tip_diffHolder tx0) tx0)
    as [[[tx1 dh1] ev1] r]; simpl in *.
  eexists. split; [by rewrite <- !(assoc_L (++))|].
  change (applied_transactions ([EvTgAdd; EvRLock; EvUpdate] ++ ev1 ++ [EvRUnlock; EvTgDone]))
    with (applied_transactions (ev1 ++ [EvRUnlock; EvTgDone])).
  rewrite applied_transactions_app. simpl. by rewrite app_nil_r.
Qed.

(** X9.  [TryTransactionSet] leaves the shutdown coordinator and the lock
    as it found them: when [cs.tg.Add] returns an error, [Done] is not
    called; when it returns nil, the calls of the run are [Add], [RLock]
    and [Update], then the calls of the callback, then [RUnlock] and
    [Done], on every path, and the callback itself touches neither the
    coordinator nor the lock. *)
Theorem TryTransactionSet_releases cs txns w :
  let w' := (TryTransactionSet cs txns w).1 in
  match (tg_Add (w_tg w)).2 with
  | Some _ =>
      w_tg w' = (tg_Add (w_tg w)).1 /\ w_events w' = w_events w ++ [EvTgAdd]
  | None =>
      w_tg w' = tg_Done (tg_Add (w_tg w)).1
      /\ exists mid,
           w_events w'
           = w_events w ++ [EvTgAdd; EvRLock; EvUpdate] ++ mid ++ [EvRUnlock; EvTgDone]
           /\ Forall (fun ev => is_bookkeeping ev = false) mid
  end.
Proof.
  destruct (tg_Add (w_tg w)) as [tg1 [e0|]] eqn:Hadd; simpl.
  { unfold TryTransactionSet. rewrite Hadd. done. }
  destruct (db_opened (w_db w)) eqn:Hopen.
  2: { unfold TryTransactionSet, Update. rewrite Hadd, Hopen. simpl.
       split; [done|]. exists []. split; [by rewrite <- (assoc_L (++))|constructor]. }
  rewrite (TryTransactionSet_entered cs txns w tg1 Hadd Hopen).
  set (tx0 := begin_tx (w_db w)).
  destruct (blockTimeStamp tx0 (blockHeight tx0)) as [blockTime [e0|]]; simpl.
  { split; [done|]. exists []. split; [by rewrite <- (assoc_L (++))|constructor]. }
  pose proof (try_loop_events (fun ev => is_bookkeeping ev = false) cs 0 txns blockTime
                (tip_diffHolder tx0) tx0) as Hmid.
  destruct (try_loop cs 0 txns blockTime (tip_diffHolder tx0) tx0)
    as [[[tx1 dh1] ev1] r]; simpl in *.
  split; [done|]. exists ev1. split; [by rewrite <- !(assoc_L (++))|].
  by apply Hmid.
Qed.

(** X10.  The transactions that a run of [TryTransactionSet] hands to
    [applyTransaction] are an initial segment of the batch, each once and in
    the order of the batch; when the call succeeds they are the whole
    batch. *)
Theorem TryTransactionSet_applies_prefix cs txns w :
  exists evs post,
    w_events (TryTransactionSet cs txns w).1 = w_events w ++ evs
    /\ txns = applied_transactions evs ++ post
    /\ (forall cc, (TryTransactionSet cs txns w).2 = Returns (cc, None) -> post = []).
Proof.
  destruct (tg_Add (w_tg w)) as [tg1 [e0|]] eqn:Hadd.
  { unfold TryTransactionSet. rewrite Hadd. simpl.
    exists [EvTgAdd], txns. by split_and!. }
  destruct (db_opened (w_db w)) eqn:Hopen.
  2: { unfold TryTransactionSet, Update. rewrite Hadd, Hopen. simpl.
       eexists _, txns. split_and!; [by rewrite <- (assoc_L (++)) | done | done]. }
  rewrite (TryTransactionSet_entered cs txns w tg1 Hadd Hopen).
  set (tx0 := begin_tx (w_db w)).
  destruct (blockTimeStamp tx0 (blockHeight tx0)) as [blockTime [e0|]]; simpl.
  { eexists _, txns. split_and!; [by rewrite <- (assoc_L (++)) | done | done]. }
  destruct (try_loop_applied cs 0 txns blockTime (tip_diffHolder tx0) tx0)
    as (post & Hpost & Hnil).
  destruct (try_loop cs 0 txns blockTime (tip_diffHolder tx0) tx0)
    as [[[tx1 dh1] ev1] r]; simpl in *.
  eexists _, post. split_and!; [by rewrite <- !(assoc_L (++)) | |].
  - change (applied_transactions ([EvTgAdd; EvRLock; EvUpdate] ++ ev1 ++ [EvRUnlock; EvTgDone]))
      with (applied_transactions (ev1 ++ [EvRUnlock; EvTgDone])).
    rewrite applied_transactions_app. simpl. by rewrite app_nil_r.
  - intros cc. destruct r; [done|]. intros _. by apply Hnil.
Qed.

(** X11.  [TryTransactionSet] writes a warning to the log exactly when a
    transaction of the batch fails validation: one warning, with the
    identifier of the first rejected transaction and the error that the call
    returns.  When it is the apply hook of a plugin that rejects the
    transaction, when the batch passes, and when the call does not reach the
    batch, nothing is logged. *)
Theorem TryTransactionSet_warning cs txns w :
  let tx0 := begin_tx (w_db w) in
  let reached :=
    (tg_Add (w_tg w)).2 = None /\ db_opened (w_db w) = true
    /\ (blockTimeStamp tx0 (blockHeight tx0)).2 = None in
  exists evs,
    w_events (TryTransactionSet cs txns w).1 = w_events w ++ evs
    /\ (~ reached -> logged_warnings evs = [])
    /\ (reached ->
        match first_rejection cs (blockTimeStamp tx0 (blockHeight tx0)).1 0 txns
                (tip_diffHolder tx0) tx0 with
        | None => logged_warnings evs = []
        | Some r =>
            logged_warnings evs
              = (if rej_by_plugin r then []
                 else [(ID (rej_transaction r), rej_error r)])
            /\ (TryTransactionSet cs txns w).2
               = Returns (ConsensusChange_zero, Some (outer (rej_error r)))
        end).
Proof.
  intros tx0 reached. subst reached.
  destruct (tg_Add (w_tg w)) as [tg1 [e0|]] eqn:Hadd.
  { unfold TryTransactionSet. rewrite Hadd. simpl.
    exists [EvTgAdd]. split_and!; [done | done | by intros [? _]]. }
  destruct (db_opened (w_db w)) eqn:Hopen.
  2: { unfold TryTransactionSet, Update. rewrite Hadd, Hopen. simpl.
       eexists. split_and!;
         [by rewrite <- (assoc_L (++)) | done | by intros (_ & ? & _)]. }
  rewrite (TryTransactionSet_entered cs txns w tg1 Hadd Hopen). fold tx0.
  destruct (blockTimeStamp tx0 (blockHeight tx0)) as [blockTime [e0|]]; simpl.
  { eexists. split_and!;
      [by rewrite <- (assoc_L (++)) | done | by intros (_ & _ & ?)]. }
  pose proof (try_loop_logged_until cs 0 txns blockTime (tip_diffHolder tx0) tx0) as Hlog.
  destruct (try_loop_rejection cs 0 txns blockTime (tip_diffHolder tx0) tx0)
    as [Herr _].
  destruct (try_loop cs 0 txns blockTime (tip_diffHolder tx0) tx0)
    as [[[tx1 dh1] ev1] r]; simpl in *.
  eexists. split; [by rewrite <- !(assoc_L (++))|].
  assert (Heq : logged_warnings ([EvTgAdd; EvRLock; EvUpdate] ++ ev1 ++ [EvRUnlock; EvTgDone])
                = logged_warnings ev1).
  { change (logged_warnings ([EvTgAdd; EvRLock; EvUpdate] ++ ev1 ++ [EvRUnlock; EvTgDone]))
      with (logged_warnings (ev1 ++ [EvRUnlock; EvTgDone])).
    rewrite logged_warnings_app. simpl. by rewrite app_nil_r. }
  rewrite Heq, Hlog. split; [intros Hn; destruct Hn; by split_and!|]. intros _.
  destruct (first_rejection cs blockTime 0 txns (tip_diffHolder tx0) tx0) as [rj|];
    simpl in *; [|done].
  by subst r.
Qed.

End ValidTransactionCoverage.

(** * Properties of the faucet *)
Section FaucetCoverage.
Import Faucet.
Context `{Env}.

(** X12.  [dripCoins] sends at most one request that changes the daemon,
    the one to [/wallet/coins] for a single output of the given amount to
    the given address, and sends it only after the status query returned,
    without error, exactly one authorisation state, and that state true.
    When it sends none, the daemon is as the query left it and the result
    is the zero identifier with an error; for an address that is not
    authorised that error is [errUnauthorized]. *)
Theorem dripCoins_posts_only_if_authorized address amount d :
  let call := "/consensus/authcoin/status?addr=" +:+ UnlockHash_String address in
  let asked := GetAPI_AuthState call d in
  let body :=
    Marshal_WalletCoinsPOST
      (mkWalletCoinsPOST
         [mkCoinOutput amount (NewCondition (NewUnlockHashCondition address))]) in
  let r := dripCoins address amount d in
  (posts r.1.2 = [] \/ posts r.1.2 = [("/wallet/coins", body.1)])
  /\ (posts r.1.2 <> [] ->
      asked.2.2 = None /\ AuthStates asked.2.1 = [true] /\ body.2 = None)
  /\ (posts r.1.2 = [] ->
      r.1.1 = asked.1 /\ r.2.1 = TransactionID_zero /\ r.2.2 <> None)
  /\ (asked.2.2 = None -> AuthStates asked.2.1 = [false] ->
      r = (asked.1, [EvGet call], (TransactionID_zero, Some errUnauthorized))).
Proof.
  intros call asked body r. subst r asked body. unfold dripCoins. fold call.
  destruct (GetAPI_AuthState call d) as [d1 [result [e|]]]; simpl.
  { split_and!; [by left | done | done | done]. }
  destruct (AuthStates result) as [|[|] [|]]; simpl;
    try (split_and!; [by left | done | done | done]).
  destruct (Marshal_WalletCoinsPOST _) as [data [e|]]; simpl.
  { split_and!; [by left | done | done | done]. }
  destruct (PostResp_TransactionID "/wallet/coins" data d1) as [d2 [resp [e|]]]; simpl;
    (split_and!; [by right | done | done | done]).
Qed.

(** X13.  Once [dripCoins] has sent its request, it returns what the
    request yields as it is: the daemon's state, the transaction
    identifier, and the error, also both at once; and it writes the request
    body to the log exactly when the request failed. *)
Theorem dripCoins_returns_the_response address amount d :
  let call := "/consensus/authcoin/status?addr=" +:+ UnlockHash_String address in
  let asked := GetAPI_AuthState call d in
  let body :=
    Marshal_WalletCoinsPOST
      (mkWalletCoinsPOST
         [mkCoinOutput amount (NewCondition (NewUnlockHashCondition address))]) in
  let sent := PostResp_TransactionID "/wallet/coins" body.1 asked.1 in
  let r := dripCoins address amount d in
  posts r.1.2 <> [] ->
  r.1.1 = sent.1
  /\ r.2 = sent.2
  /\ (EvPrintln ["[ERROR] /wallet/coins - request body:"; body.1] ∈ r.1.2
      <-> sent.2.2 <> None).
Proof.
  intros call asked body sent r. subst r sent asked body. unfold dripCoins. fold call.
  destruct (GetAPI_AuthState call d) as [d1 [result [e|]]]; simpl; [done|].
  destruct (AuthStates result) as [|[|] [|]]; simpl; try done.
  destruct (Marshal_WalletCoinsPOST _) as [data [e|]]; simpl; [done|].
  destruct (PostResp_TransactionID "/wallet/coins" data d1) as [d2 [resp [e|]]]; simpl;
    intros _; split_and!; try done.
  - split; [done|]. intros _. set_solver.
  - split; [|done]. intros Hin.
    repeat (apply elem_of_cons in Hin as [Hin|Hin]; [done|]).
    by apply not_elem_of_nil in Hin.
Qed.

(** X14.  [updateAddressAuthorization] builds a transaction that carries
    the drawn nonce and lists the address as authorised and in no other
    list when [authorize] is true, as deauthorised and in no other list
    when it is false.  It sends that transaction to [/wallet/sign]; it
    sends something to [/transactionpool/transactions] only after the
    signing request succeeded, and then the encoding of what the signing
    returned.  Unless it gets that far it returns the zero identifier and
    an error; when it does, it returns what the second request yields. *)
Theorem updateAddressAuthorization_requests
    (address : UnlockHash) (authorize : bool) (d : Daemon) :
  let drawn := RandomTransactionNonce d in
  let tx :=
    mkAuthAddressUpdateTransaction drawn.2
      (if authorize then [address] else []) (if authorize then [] else [address]) in
  let body :=
    Marshal_Transaction
      (AuthAddressUpdateTransaction_Transaction tx TransactionVersionAuthAddressUpdateTx) in
  let signed := PostResp_Signed "/wallet/sign" body.1 drawn.1 in
  let body2 := Marshal_Signed signed.2.1 in
  let pushed := PostResp_TransactionID "/transactionpool/transactions" body2.1 signed.1 in
  let r := updateAddressAuthorization address authorize d in
  posts r.1.2
  = match body.2 with
    | Some _ => []
    | None =>
        ("/wallet/sign", body.1)
          :: match signed.2.2, body2.2 with
             | None, None => [("/transactionpool/transactions", body2.1)]
             | _, _ => []
             end
    end
  /\ (length (posts r.1.2) < 2 -> r.2.1 = TransactionID_zero /\ r.2.2 <> None)
  /\ (length (posts r.1.2) = 2 -> r.1.1 = pushed.1 /\ r.2 = pushed.2).
Proof.
  intros drawn tx body signed body2 pushed r.
  subst r pushed body2 signed body tx drawn. unfold updateAddressAuthorization.
  destruct (RandomTransactionNonce d) as [d1 nonce]; simpl.
  destruct authorize; simpl;
    (destruct (Marshal_Transaction _) as [data [e|]]; simpl; [by split_and!|];
     destruct (PostResp_Signed "/wallet/sign" data d1) as [d2 [signedTx [e|]]]; simpl;
       [by split_and!|];
     destruct (Marshal_Signed signedTx) as [data2 [e|]]; simpl; [by split_and!|];
     destruct (PostResp_TransactionID _ data2 d2) as [d3 [resp err]]; simpl;
     split_and!; [done | lia | done]).
Qed.

End FaucetCoverage.

(** * Properties of the chain constants *)
Section ConfigCoverage.
Import Config.
Context `{Env}.

Lemma unlockHashFromHex_twice {A} hstr (k : UnlockHash -> UnlockHash -> outcome A) :
  and_then (unlockHashFromHex hstr) (fun a => and_then (unlockHashFromHex hstr) (k a))
  = match LoadString hstr with
    | (uh, None) => k uh uh
    | (_, Some _) => Panics
    end.
Proof.
  unfold unlockHashFromHex.
  destruct (LoadString hstr) as [uh [e|]]; reflexivity.
Qed.

(** X15.  Each of the three genesis functions panics exactly when
    [LoadString] rejects the address written into it, and for the standard
    net that address is the empty string.  When [GetStandardnetGenesis]
    returns, the fee pool and both block stake allocations, of 100 and of
    10, carry the one condition made from what the empty string decodes to,
    and no coins are distributed. *)
Theorem genesis_needs_its_address :
  (GetStandardnetGenesis = Panics <-> (LoadString "").2 <> None)
  /\ (GetTestnetGenesis = Panics <-> (LoadString testnet_address).2 <> None)
  /\ (GetDevnetGenesis = Panics <-> (LoadString devnet_address).2 <> None)
  /\ forall cfg,
       GetStandardnetGenesis = Returns cfg ->
       let condition := hash_condition (LoadString "").1 in
       TransactionFeeCondition cfg = condition
       /\ GenesisCoinDistribution cfg = []
       /\ GenesisBlockStakeAllocation cfg
          = [mkBlockStakeOutput 100%N condition; mkBlockStakeOutput 10%N condition].
Proof.
  unfold GetStandardnetGenesis, GetTestnetGenesis, GetDevnetGenesis.
  rewrite !unlockHashFromHex_twice. unfold unlockHashFromHex.
  destruct (LoadString "") as [uh0 [e0|]];
    destruct (LoadString testnet_address) as [uh1 [e1|]];
    destruct (LoadString devnet_address) as [uh2 [e2|]]; simpl;
    split_and!; try done; try (by intros cfg [= <-]).
Qed.

(** X16.  Whatever constants the rivine library supplies to start from,
    the constants that the three genesis functions return agree with the
    comments of the file and with each other: one transaction version for
    genesis and default; a maturity delay of one day of blocks on the
    standard and the test net and of 120 seconds on the dev net; an extreme
    future threshold of twice the future threshold; the two bounds of the
    difficulty adjustment reciprocal, one below and one above 1; and on the
    standard net a block stake aging above one day and below two. *)
Theorem genesis_constants_coherent :
  (forall cfg,
     GetStandardnetGenesis = Returns cfg ->
     coherent 86400 cfg /\ (86400 < BlockStakeAging cfg < 2 * 86400)%N)
  /\ (forall cfg, GetTestnetGenesis = Returns cfg -> coherent 86400 cfg)
  /\ (forall cfg, GetDevnetGenesis = Returns cfg -> coherent 120 cfg).
Proof.
  unfold GetStandardnetGenesis, GetTestnetGenesis, GetDevnetGenesis.
  rewrite !unlockHashFromHex_twice. unfold unlockHashFromHex.
  destruct (LoadString "") as [uh0 [e0|]];
    destruct (LoadString testnet_address) as [uh1 [e1|]];
    destruct (LoadString devnet_address) as [uh2 [e2|]]; simpl;
    split_and!; try done; intros cfg [= <-]; unfold coherent; simpl;
    split_and!; try done; try (by vm_compute).
Qed.

(** X17.  On the standard and the test net the block creator fee is zero
    and the minimum transaction fee is the thousandth part of one coin,
    rounded down, hence zero when one coin has fewer than 1000 units; on
    the dev net the minimum fee is one coin and the block creator fee ten
    times that.  The test and the dev net start with 100 million coins.
    None of the three changes the unit. *)
Theorem genesis_fees :
  (forall cfg,
     GetStandardnetGenesis = Returns cfg ->
     OneCoin cfg = OneCoin StandardnetChainConstants
     /\ BlockCreatorFee cfg = 0%N
     /\ (1000 * MinimumTransactionFee cfg <= OneCoin cfg
         < 1000 * (MinimumTransactionFee cfg + 1))%N
     /\ (MinimumTransactionFee cfg = 0%N <-> (OneCoin cfg < 1000)%N))
  /\ (forall cfg,
        GetTestnetGenesis = Returns cfg ->
        OneCoin cfg = OneCoin TestnetChainConstants
        /\ BlockCreatorFee cfg = 0%N
        /\ (1000 * MinimumTransactionFee cfg <= OneCoin cfg
            < 1000 * (MinimumTransactionFee cfg + 1))%N
        /\ (MinimumTransactionFee cfg = 0%N <-> (OneCoin cfg < 1000)%N)
        /\ co_Value <$> GenesisCoinDistribution cfg = [(100000000 * OneCoin cfg)%N])
  /\ (forall cfg,
        GetDevnetGenesis = Returns cfg ->
        OneCoin cfg = OneCoin DevnetChainConstants
        /\ MinimumTransactionFee cfg = OneCoin cfg
        /\ BlockCreatorFee cfg = (10 * MinimumTransactionFee cfg)%N
        /\ co_Value <$> GenesisCoinDistribution cfg = [(100000000 * OneCoin cfg)%N]).
Proof.
  assert (Hdiv : forall c : N,
            (1000 * (c / 1000) <= c < 1000 * (c / 1000 + 1))%N
            /\ ((c / 1000 = 0)%N <-> (c < 1000)%N)).
  { intros c.
    pose proof (N.div_mod c 1000 ltac:(done)) as Hdm.
    pose proof (N.mod_lt c 1000 ltac:(done)) as Hlt.
    remember (c / 1000)%N as q eqn:Hq. remember (c mod 1000)%N as m eqn:Hm.
    clear Hq Hm. lia. }
  unfold GetStandardnetGenesis, GetTestnetGenesis, GetDevnetGenesis.
  rewrite !unlockHashFromHex_twice. unfold unlockHashFromHex.
  destruct (LoadString "") as [uh0 [e0|]];
    destruct (LoadString testnet_address) as [uh1 [e1|]];
    destruct (LoadString devnet_address) as [uh2 [e2|]]; simpl;
    split_and!; try done; intros cfg [= <-]; unfold Mul64, Div64; simpl;
    split_and!; try done; try apply Hdiv; try lia; try (f_equal; lia).
Qed.

End ConfigCoverage.

(** * The further statements on the samples *)
Section DiskCoverageRuns.
Import Database Disk.

Lemma markInconsistency_then_detected_witness :
  exists tx',
    markInconsistency garbled_tx = (tx', [], Returns tt)
    /\ inconsistencyDetected tx' = ([], Returns true).
Proof.
  apply (markInconsistency_then_detected garbled_tx {[ "Consistency" := [x02] ]});
    [reflexivity | reflexivity | done | reflexivity].
Defined.

Lemma initDB_then_not_detected_witness :
  inconsistencyDetected (initDB fresh_tx).1 = ([], Returns false).
Proof.
  apply (initDB_then_not_detected fresh_tx (initDB fresh_tx).1); [|reflexivity].
  vm_compute. reflexivity.
Defined.

Lemma markInconsistency_frame_witness :
  tx_writable (markInconsistency garbled_tx).1.1 = true
  /\ dbInitialized (markInconsistency garbled_tx).1.1 = false.
Proof.
  destruct (markInconsistency_frame garbled_tx) as (Hw & _ & _ & _ & Hi).
  split; [exact Hw | exact Hi].
Defined.

Lemma openDB_error_is_wrapped_witness :
  (openDB "consensus.db" (host_with damaged_image)).2
    = Some (errorString "error opening consensus database: unexpected end of file")
  /\ errorString "error opening consensus database: unexpected end of file"
     <> ErrBadVersion.
Proof.
  split; [reflexivity|].
  apply (openDB_error_is_wrapped "consensus.db" (host_with damaged_image)).
  reflexivity.
Defined.

Lemma openDB_events_witness :
  exists evs,
    host_events (openDB "consensus.db" (host_with old_image)).1
      = host_events (host_with old_image) ++ evs
    /\ exists rest,
         evs = [EvOpenDatabase dbMetadata "consensus.db"; EvConvertLegacy "consensus.db";
                EvPrintln "Outdated consensus database... backing up and replacing";
                EvRename "consensus.db" (backup_name "consensus.db")] ++ rest
         /\ (rest = [] \/ rest = [EvOpenDatabase dbMetadata "consensus.db"]).
Proof.
  destruct (openDB_events "consensus.db" (host_with old_image)) as (evs & Hev & Hboth & _).
  exists evs. split; [exact Hev|]. apply Hboth. split; reflexivity.
Defined.

End DiskCoverageRuns.

Section ChainCoverageRuns.
Import ValidTransaction TryTrace Scenario.

Lemma state_reader_zero_on_error_witness :
  BlockAtHeight (newConsensusStateGetter (begin_tx (w_db sample_world))) 1%N
  = (mkConsensusBlock [] 2%N 7%N 9%N, None).
Proof.
  destruct (state_reader_zero_on_error
              (newConsensusStateGetter (begin_tx (w_db sample_world))) 1%N)
    as (_ & _ & Hfields).
  exact (Hfields "b" (mkProcessedBlock [] 2%N 7%N 9%N [] []) None eq_refl eq_refl).
Defined.

Lemma validTransaction_nil_iff_witness :
  Forall (fun s => s.2 = None)
    (validation_stages sample_cs (begin_tx (w_db sample_world)) spend_O
       (supplied_context (try_constants sample_cs) 1%N 3%N false)).
Proof.
  apply (validTransaction_nil_iff sample_cs (begin_tx (w_db sample_world)) spend_O
           (try_constants sample_cs) 1%N 3%N false).
  vm_compute. reflexivity.
Defined.

Lemma TryTransactionSet_applies_until_rejection_witness :
  tg_Add (w_tg sample_world) = (false, None)
  /\ db_opened (w_db sample_world) = true
  /\ blockTimeStamp (begin_tx (w_db sample_world))
       (blockHeight (begin_tx (w_db sample_world))) = (3%N, None)
  /\ exists evs,
       w_events (TryTransactionSet sample_cs [spend_O; spend_O; spend_P] sample_world).1
         = w_events sample_world ++ evs
       /\ applied_transactions evs = [spend_O].
Proof.
  assert (Hadd : tg_Add (w_tg sample_world) = (false, None)) by reflexivity.
  assert (Hopen : db_opened (w_db sample_world) = true) by reflexivity.
  assert (Htime : blockTimeStamp (begin_tx (w_db sample_world))
                    (blockHeight (begin_tx (w_db sample_world))) = (3%N, None))
    by reflexivity.
  split; [exact Hadd|]. split; [exact Hopen|]. split; [exact Htime|].
  destruct (TryTransactionSet_applies_until_rejection sample_cs
              [spend_O; spend_O; spend_P] sample_world false 3%N Hadd Hopen Htime)
    as (evs & Hev & Hspec).
  exists evs. split; [exact Hev|].
  vm_compute in Hspec. exact (proj2 Hspec).
Defined.

Lemma TryTransactionSet_releases_witness :
  w_tg (TryTransactionSet sample_cs [spend_P] sample_world).1 = false
  /\ exists mid,
       w_events (TryTransactionSet sample_cs [spend_P] sample_world).1
       = w_events sample_world
           ++ [EvTgAdd; EvRLock; EvUpdate] ++ mid ++ [EvRUnlock; EvTgDone]
       /\ Forall (fun ev => is_bookkeeping ev = false) mid.
Proof.
  exact (TryTransactionSet_releases sample_cs [spend_P] sample_world).
Defined.

Lemma TryTransactionSet_applies_prefix_witness :
  exists evs post,
    w_events (TryTransactionSet sample_cs [spend_O; spend_O; spend_P] sample_world).1
      = w_events sample_world ++ evs
    /\ [spend_O; spend_O; spend_P] = applied_transactions evs ++ post
    /\ (forall cc,
          (TryTransactionSet sample_cs [spend_O; spend_O; spend_P] sample_world).2
            = Returns (cc, None) -> post = []).
Proof.
  exact (TryTransactionSet_applies_prefix sample_cs [spend_O; spend_O; spend_P] sample_world).
Defined.

Lemma TryTransactionSet_warning_witness :
  exists evs,
    w_events (TryTransactionSet sample_cs [spend_O; spend_O] sample_world).1
      = w_events sample_world ++ evs
    /\ logged_warnings evs = [(10%N, Database.errNilItem)]
    /\ (TryTransactionSet sample_cs [spend_O; spend_O] sample_world).2
       = Returns (ConsensusChange_zero, Some (outer Database.errNilItem)).
Proof.
  destruct (TryTransactionSet_warning sample_cs [spend_O; spend_O] sample_world)
    as (evs & Hev & _ & Hspec).
  exists evs. split; [exact Hev|].
  assert (Hreached :
            (tg_Add (w_tg sample_world)).2 = None
            /\ db_opened (w_db sample_world) = true
            /\ (blockTimeStamp (begin_tx (w_db sample_world))
                  (blockHeight (begin_tx (w_db sample_world)))).2 = None)
    by (split_and!; reflexivity).
  specialize (Hspec Hreached). vm_compute in Hspec. exact Hspec.
Defined.

End ChainCoverageRuns.

Section FaucetRuns.
Import Faucet Faucet.Sample.

Lemma dripCoins_posts_only_if_authorized_witness :
  dripCoins "bob" "5" open_daemon
  = (open_daemon, [EvGet "/consensus/authcoin/status?addr=bob"],
     (0, Some errUnauthorized)).
Proof.
  destruct (@dripCoins_posts_only_if_authorized sample_types sample_env
              "bob" "5" open_daemon) as (_ & _ & _ & Hno).
  exact (Hno eq_refl eq_refl).
Defined.

Lemma dripCoins_returns_the_response_witness :
  (dripCoins "alice" "5" locked_daemon).2
  = (0, Some (errorString "wallet must be unlocked before it can be used"))
  /\ (dripCoins "alice" "5" open_daemon).2 = (1, None).
Proof.
  split.
  - destruct (@dripCoins_returns_the_response sample_types sample_env
                "alice" "5" locked_daemon) as (_ & Hr & _);
      [vm_compute; discriminate | exact Hr].
  - destruct (@dripCoins_returns_the_response sample_types sample_env
                "alice" "5" open_daemon) as (_ & Hr & _);
      [vm_compute; discriminate | exact Hr].
Defined.

Lemma updateAddressAuthorization_requests_witness :
  posts (updateAddressAuthorization "bob" true open_daemon).1.2
  = [("/wallet/sign", "tx:v176:n42:+bob:-");
     ("/transactionpool/transactions", "signed:tx:v176:n42:+bob:-")]
  /\ posts (updateAddressAuthorization "bob" false locked_daemon).1.2
     = [("/wallet/sign", "tx:v176:n42:+:-bob")].
Proof.
  destruct (@updateAddressAuthorization_requests sample_types sample_env
              "bob" true open_daemon) as (Hok & _).
  destruct (@updateAddressAuthorization_requests sample_types sample_env
              "bob" false locked_daemon) as (Hlocked & _).
  split; [exact Hok | exact Hlocked].
Defined.

End FaucetRuns.

Section ConfigRuns.
Import Config Config.Sample.

Lemma genesis_needs_its_address_witness :
  @GetStandardnetGenesis _ sample_env = Panics
  /\ exists cfg,
       @GetStandardnetGenesis _ lenient_env = Returns cfg
       /\ TransactionFeeCondition cfg = ""
       /\ GenesisBlockStakeAllocation cfg
          = [mkBlockStakeOutput 100%N ""; mkBlockStakeOutput 10%N ""].
Proof.
  destruct (@genesis_needs_its_address _ sample_env) as (Hpanics & _).
  destruct (@genesis_needs_its_address _ lenient_env) as (_ & _ & _ & Hreturns).
  split; [apply Hpanics; discriminate|].
  eexists. split; [reflexivity|].
  destruct (Hreturns _ eq_refl) as (Hfee & _ & Hstakes).
  split; [exact Hfee | exact Hstakes].
Defined.

Lemma genesis_constants_coherent_witness :
  (exists cfg,
     @GetStandardnetGenesis _ lenient_env = Returns cfg
     /\ coherent 86400 cfg /\ (86400 < BlockStakeAging cfg < 2 * 86400)%N)
  /\ (exists cfg, @GetDevnetGenesis _ sample_env = Returns cfg /\ coherent 120 cfg).
Proof.
  destruct (@genesis_constants_coherent _ lenient_env) as (Hstd & _ & _).
  destruct (@genesis_constants_coherent _ sample_env) as (_ & _ & Hdev).
  split.
  - eexists. split; [reflexivity|]. apply Hstd. reflexivity.
  - eexists. split; [reflexivity|]. apply Hdev. reflexivity.
Defined.

Lemma genesis_fees_witness :
  exists cfg,
    @GetTestnetGenesis _ sample_env = Returns cfg
    /\ BlockCreatorFee cfg = 0%N
    /\ MinimumTransactionFee cfg = 1000000%N
    /\ co_Value <$> GenesisCoinDistribution cfg = [(100000000 * OneCoin cfg)%N].
Proof.
  destruct (@genesis_fees _ sample_env) as (_ & Htest & _).
  eexists. split; [reflexivity|].
  destruct (Htest _ eq_refl) as (_ & Hcreator & _ & _ & Hcoins).
  split; [exact Hcreator|]. split; [reflexivity | exact Hcoins].
Defined.

End ConfigRuns.
